(** * pydataparc: the Historian client (historian.py)

    A shallow embedding of [pydataparc/historian.py]: the [TagReading]
    record and its quality classification, the constructor of [Historian]
    with its environment fallback, the escaping of tag identifiers, and
    the read operations with their connection, query and row mapping. *)

From Stdlib Require Import ZArith String Ascii Bool Floats.
From stdpp Require Import gmap strings list fin_maps.

Local Open Scope string_scope.
Local Open Scope Z_scope.

(** ** Strings: [str.replace], the SQL [REPLACE] and the [in] test *)

Module Str.

(** Python's [s.startswith(p)]. *)
Fixpoint startswith (s p : string) {struct p} : bool :=
  match p with
  | EmptyString => true
  | String a p' =>
      match s with
      | EmptyString => false
      | String b s' => if ascii_dec a b then startswith s' p' else false
      end
  end.

(** Left-to-right, non-overlapping replacement of a non-empty pattern.
    [skip] counts the characters of a match that are still to be
    dropped, so the recursion is structural on the scanned string. *)
Fixpoint replace_from (old new : string) (skip : nat) (s : string) : string :=
  match s with
  | EmptyString => EmptyString
  | String c s' =>
      match skip with
      | S k => replace_from old new k s'
      | O =>
          if startswith s old
          then new +:+ replace_from old new (String.length old - 1) s'
          else String c (replace_from old new 0 s')
      end
  end.

(** With an empty [old], [s.replace(old, new)] puts [new] before every
    character and at the end. *)
Fixpoint intersperse_all (new s : string) : string :=
  match s with
  | EmptyString => new
  | String c s' => new +:+ String c (intersperse_all new s')
  end.

(** Python's [s.replace(old, new)]. *)
Definition replace (s old new : string) : string :=
  match old with
  | EmptyString => intersperse_all new s
  | String _ _ => replace_from old new 0 s
  end.

(** T-SQL's [REPLACE(s, pattern, replacement)] under a binary collation:
    an empty pattern leaves [s] as it is. *)
Definition sql_replace (s pattern replacement : string) : string :=
  match pattern with
  | EmptyString => s
  | String _ _ => replace_from pattern replacement 0 s
  end.

(** Python's [sub in s]. *)
Fixpoint contains (sub s : string) : bool :=
  startswith s sub
  || match s with
     | EmptyString => false
     | String _ s' => contains sub s'
     end.

(** Python's [sep.join(parts)]. *)
Fixpoint join (sep : string) (parts : list string) : string :=
  match parts with
  | [] => EmptyString
  | [p] => p
  | p :: ps => p +:+ sep +:+ join sep ps
  end.

End Str.

(** ** Tag identifier escaping *)

(** [tag_id.replace('/', '//')], lines 79, 105, 131, 158 and 190. *)
Definition escape (tag_id : string) : string := Str.replace tag_id "/" "//".

(** [REPLACE(tagname, '//', '/')] of every SELECT list. *)
Definition collapse (tagname : string) : string := Str.sql_replace tagname "//" "/".

(** ** Exceptions and results *)

(** The exceptions the module lets escape. [UnknownTimeZoneError] is pytz's
    (a subclass of [KeyError]); [DatabaseError] stands for pymssql's
    [Error] hierarchy. *)
Inductive exn : Type :=
| ValueError (msg : string)
| TypeError (msg : string)
| KeyError (key : string)
| UnknownTimeZoneError (name : string)
| DatabaseError (msg : string).

Inductive outcome (A : Type) : Type :=
| Ok (a : A)
| Raise (e : exn).
Arguments Ok {A} a.
Arguments Raise {A} e.

#[global] Instance outcome_ret : MRet outcome := fun A a => Ok a.
#[global] Instance outcome_bind : MBind outcome := fun A B f m =>
  match m with
  | Ok a => f a
  | Raise e => Raise e
  end.

(** ** Dates and times *)

Module Datetime.

(** The [tzinfo] object of an aware datetime, as pytz attaches it: a zone
    name with one fixed offset, in seconds east of UTC. *)
Record tzinfo : Type := { tzname : string; utcoffset : Z }.

(** [datetime.datetime]: the wall-clock fields and [tzinfo], which is
    [None] on a naive value. *)
Record datetime : Type := {
  year : Z; month : Z; day : Z;
  hour : Z; minute : Z; second : Z; microsecond : Z;
  dt_tzinfo : option tzinfo
}.

Definition is_naive (dt : datetime) : bool :=
  match dt_tzinfo dt with None => true | Some _ => false end.

(** [dt.replace(tzinfo=tz)]. *)
Definition replace_tzinfo (dt : datetime) (tz : option tzinfo) : datetime :=
  {| year := year dt; month := month dt; day := day dt;
     hour := hour dt; minute := minute dt; second := second dt;
     microsecond := microsecond dt; dt_tzinfo := tz |}.

(** [dt.replace(microsecond=us)]; the constructor refuses a value
    outside [0, 999999]. *)
Definition replace_microsecond (dt : datetime) (us : Z) : outcome datetime :=
  if (0 <=? us) && (us <=? 999999)
  then Ok {| year := year dt; month := month dt; day := day dt;
             hour := hour dt; minute := minute dt; second := second dt;
             microsecond := us; dt_tzinfo := dt_tzinfo dt |}
  else Raise (ValueError "microsecond must be in 0..999999").

(** CPython's helpers for the proleptic Gregorian ordinal. *)
Definition is_leap (y : Z) : bool :=
  (y mod 4 =? 0) && (negb (y mod 100 =? 0) || (y mod 400 =? 0)).

Definition days_before_year (y : Z) : Z :=
  let p := y - 1 in p * 365 + p / 4 - p / 100 + p / 400.

Definition DAYS_BEFORE_MONTH : list Z :=
  [-1; 0; 31; 59; 90; 120; 151; 181; 212; 243; 273; 304; 334].

Definition days_before_month (y m : Z) : Z :=
  nth (Z.to_nat m) DAYS_BEFORE_MONTH 0
  + (if (2 <? m) && is_leap y then 1 else 0).

Definition ymd2ord (y m d : Z) : Z :=
  days_before_year y + days_before_month y m + d.

(** Microseconds of the wall clock since the start of day 0. *)
Definition wall_microseconds (dt : datetime) : Z :=
  (((ymd2ord (year dt) (month dt) (day dt) * 24 + hour dt) * 60
    + minute dt) * 60 + second dt) * 1000000 + microsecond dt.

(** Tuple comparison, as [_cmp] does on the seven fields. *)
Fixpoint lex_compare (xs ys : list Z) : comparison :=
  match xs, ys with
  | [], [] => Eq
  | [], _ :: _ => Lt
  | _ :: _, [] => Gt
  | x :: xs', y :: ys' =>
      match Z.compare x y with
      | Eq => lex_compare xs' ys'
      | c => c
      end
  end.

Definition fields (dt : datetime) : list Z :=
  [year dt; month dt; day dt; hour dt; minute dt; second dt; microsecond dt].

(** [datetime._cmp]: equal offsets (or two naive values) compare the
    fields; a naive value against an aware one is a [TypeError]; else the
    sign of the difference of the two instants. *)
Definition cmp (a b : datetime) : outcome comparison :=
  match utcoffset <$> dt_tzinfo a, utcoffset <$> dt_tzinfo b with
  | None, None => Ok (lex_compare (fields a) (fields b))
  | Some oa, Some ob =>
      if oa =? ob then Ok (lex_compare (fields a) (fields b))
      else Ok (Z.compare (wall_microseconds a - oa * 1000000)
                         (wall_microseconds b - ob * 1000000))
  | _, _ => Raise (TypeError "can't compare offset-naive and offset-aware datetimes")
  end.

(** [a <= b] and [a > b]. *)
Definition le (a b : datetime) : outcome bool :=
  c ← cmp a b; mret (match c with Gt => false | _ => true end).

Definition gt (a b : datetime) : outcome bool :=
  c ← cmp a b; mret (match c with Gt => true | _ => false end).

(** A pytz time zone: its name and the offset it gives to a wall-clock
    time. *)
Record Zone : Type := { zone : string; utcoffset_at : datetime -> Z }.

Definition not_naive_message : string :=
  "Not naive datetime (tzinfo is already set)".

(** [tz.localize(dt)] of pytz: a datetime that already has a [tzinfo] is
    refused; a naive one keeps its wall-clock fields and gets the zone's
    [tzinfo] for that wall-clock time. *)
Definition localize (tz : Zone) (dt : datetime) : outcome datetime :=
  match dt_tzinfo dt with
  | Some _ => Raise (ValueError not_naive_message)
  | None =>
      Ok (replace_tzinfo dt
            (Some {| tzname := zone tz; utcoffset := utcoffset_at tz dt |}))
  end.

Definition UTC : Zone := {| zone := "UTC"; utcoffset_at := fun _ => 0 |}.

End Datetime.
Import Datetime.

(** ** Records of the module *)

(** [TagReading], lines 20-24. *)
Record TagReading : Type := {
  value : float;
  timestamp : datetime;
  quality : Z
}.

(** [TagReading.quality_str], lines 26-36. *)
Definition quality_str (self : TagReading) : string :=
  if quality self =? 192 then "Good"
  else if quality self =? 0 then "Bad"
  else "Unknown".

(** ** The client and its constructor *)

(** The attributes [__init__] sets, lines 48-53. *)
Record Historian : Type := {
  server : string;
  user : string;
  password : string;
  database : string;
  abbreviation : string;
  timezone : Zone
}.

(** What the constructor reads from the process: [os.environ] and the zone
    files [pytz.timezone] finds. *)
Record Process : Type := {
  environ : gmap string string;
  pytz_zones : string -> option Zone
}.

(** [os.environ[key]]. *)
Definition environ_getitem (os : Process) (key : string) : outcome string :=
  match environ os !! key with
  | Some v => Ok v
  | None => Raise (KeyError key)
  end.

(** [os.environ.get(key, default)]. *)
Definition environ_get (os : Process) (key default : string) : string :=
  match environ os !! key with
  | Some v => v
  | None => default
  end.

(** [pytz.timezone(name)]. *)
Definition pytz_timezone (os : Process) (name : string) : outcome Zone :=
  match pytz_zones os name with
  | Some tz => Ok tz
  | None => Raise (UnknownTimeZoneError name)
  end.

(** The default of the [database] parameter, line 47. *)
Definition default_database : string := "ctc_config".

(** [Historian.__init__], lines 46-53. A parameter left at its default
    [None] is [None] here. *)
Definition Historian_init (os : Process)
    (site_abbreviation server user password timezone : option string)
    (database : string) : outcome Historian :=
  server' ← match server with
            | Some s => Ok s
            | None => environ_getitem os "DATAPARC_SERVER"
            end;
  user' ← match user with
          | Some s => Ok s
          | None => environ_getitem os "DATAPARC_USERNAME"
          end;
  password' ← match password with
              | Some s => Ok s
              | None => environ_getitem os "DATAPARC_PASSWORD"
              end;
  abbreviation' ← match site_abbreviation with
                  | Some s => Ok s
                  | None => environ_getitem os "DATAPARC_SITE_ABBREVIATION"
                  end;
  timezone' ← match timezone with
              | Some name => pytz_timezone os name
              | None => pytz_timezone os (environ_get os "DATAPARC_TIMEZONE" "UTC")
              end;
  mret {| server := server'; user := user'; password := password';
          database := database; abbreviation := abbreviation';
          timezone := timezone' |}.

(** The four required settings, in the order the constructor resolves
    them, and the variable each falls back to. *)
Inductive setting : Type := Server_ | User_ | Password_ | Abbreviation_.

Definition variable_of (f : setting) : string :=
  match f with
  | Server_ => "DATAPARC_SERVER"
  | User_ => "DATAPARC_USERNAME"
  | Password_ => "DATAPARC_PASSWORD"
  | Abbreviation_ => "DATAPARC_SITE_ABBREVIATION"
  end.

Definition position (f : setting) : nat :=
  match f with
  | Server_ => 0
  | User_ => 1
  | Password_ => 2
  | Abbreviation_ => 3
  end.

(** The constructor arguments of one call. *)
Record init_args : Type := {
  arg_site_abbreviation : option string;
  arg_server : option string;
  arg_user : option string;
  arg_password : option string;
  arg_timezone : option string;
  arg_database : string
}.

Definition construct (os : Process) (a : init_args) : outcome Historian :=
  Historian_init os (arg_site_abbreviation a) (arg_server a) (arg_user a)
    (arg_password a) (arg_timezone a) (arg_database a).

Definition explicit (a : init_args) (f : setting) : option string :=
  match f with
  | Server_ => arg_server a
  | User_ => arg_user a
  | Password_ => arg_password a
  | Abbreviation_ => arg_site_abbreviation a
  end.

(** Neither the argument nor the variable is there. *)
Definition missing (os : Process) (a : init_args) (f : setting) : Prop :=
  explicit a f = None /\ environ os !! variable_of f = None.

(** ** The database server and the cursor *)

(** A row of the historian's table-valued functions
    [Ctc_fn_parcdata_readrawtags] and [Ctc_fn_parcdata_readinterpolatedtags]. *)
Record HistorianRow : Type := {
  tagname : string;
  h_timestamp : datetime;
  h_value : float;
  h_quality : Z;
  shistorianquality : string
}.

(** A row of a cursor opened with [as_dict=True]: the four columns the
    SELECT lists name. *)
Record Row : Type := {
  Id : string;
  Timestamp : datetime;
  Value : float;
  Quality : Z
}.

(** A time argument of the raw read: the SQL [CURRENT_TIMESTAMP] or a
    bound parameter. *)
Inductive time_arg : Type :=
| CURRENT_TIMESTAMP
| Bound (dt : datetime).

(** What a table-valued function answers: its rows, or the message of the
    error pymssql raises for it. *)
Inductive reply : Type :=
| Rows (rows : list HistorianRow)
| Failed (msg : string).

(** The server behind [pymssql.connect]: whether it lets a login in (the
    message of the error otherwise), and its two table-valued functions. *)
Record Server : Type := {
  login_error : string -> string -> string -> string -> option string;
  readrawtags : string -> time_arg -> time_arg -> reply;
  readinterpolatedtags : string -> datetime -> datetime -> string -> Z -> reply
}.

(** The statements the client sends, with their bound parameters. *)
Inductive statement : Type :=
| SelectCurrent (tag_ids : string)
| SelectRaw (tag_ids : string) (start_time end_time : datetime)
| SelectInterpolated (tag_ids : string) (start_time end_time : datetime)
    (aggregate : string) (step_size : Z).

(** [SELECT REPLACE(tagname, '//', '/') [Id], Timestamp, value, quality
    FROM ... WHERE shistorianquality != 'NoBound'], over the rows of the
    table-valued function. *)
Definition select_columns (rows : list HistorianRow) : list Row :=
  (fun r => {| Id := collapse (tagname r); Timestamp := h_timestamp r;
               Value := h_value r; Quality := h_quality r |})
  <$> filter (fun r => shistorianquality r <> "NoBound") rows.

Definition select_from (r : reply) : outcome (list Row) :=
  match r with
  | Rows rows => Ok (select_columns rows)
  | Failed msg => Raise (DatabaseError msg)
  end.

(** The rows a statement yields on a server. *)
Definition run (srv : Server) (q : statement) : outcome (list Row) :=
  match q with
  | SelectCurrent ids =>
      select_from (readrawtags srv ids CURRENT_TIMESTAMP CURRENT_TIMESTAMP)
  | SelectRaw ids t0 t1 =>
      select_from (readrawtags srv ids (Bound t0) (Bound t1))
  | SelectInterpolated ids t0 t1 aggregate step_size =>
      select_from (readinterpolatedtags srv ids t0 t1 aggregate step_size)
  end.

(** What a call does on the network, in order. *)
Inductive event : Type :=
| Connect (server user password database : string)
| Execute (q : statement)
| Close.

(** A computation that may raise and that appends to the log of events. *)
Definition io (A : Type) : Type := list event -> outcome A * list event.

#[global] Instance io_ret : MRet io := fun A a log => (Ok a, log).
#[global] Instance io_bind : MBind io := fun A B f m log =>
  match m log with
  | (Ok a, log') => f a log'
  | (Raise e, log') => (Raise e, log')
  end.

(** A step that touches no network. *)
Definition lift {A : Type} (r : outcome A) : io A := fun log => (r, log).

(** [with pymssql.connect(...) as conn: with conn.cursor(as_dict=True) as
    cursor: body]: the connection is closed on every way out of [body]. *)
Definition with_cursor {A : Type} (srv : Server) (self : Historian)
    (body : io A) : io A :=
  fun log =>
    let log1 := (log ++ [Connect (server self) (user self) (password self)
                                 (database self)])%list in
    match login_error srv (server self) (user self) (password self)
            (database self) with
    | Some msg => (Raise (DatabaseError msg), log1)
    | None => let (r, log2) := body log1 in (r, (log2 ++ [Close])%list)
    end.

(** [cursor.execute(sql, params)], and the rows the cursor then holds. *)
Definition execute (srv : Server) (q : statement) : io (list Row) :=
  fun log => (run srv q, (log ++ [Execute q])%list).

(** ** The read operations *)

(** [TagReading(r['Value'], self.timezone.localize(r['Timestamp']), r['Quality'])]. *)
Definition reading (self : Historian) (r : Row) : outcome TagReading :=
  ts ← localize (timezone self) (Timestamp r);
  mret {| value := Value r; timestamp := ts; quality := Quality r |}.

(** The same with [r['Timestamp'].replace(microsecond=0)], lines 205 and 207. *)
Definition reading_whole_second (self : Historian) (r : Row) : outcome TagReading :=
  t ← replace_microsecond (Timestamp r) 0;
  ts ← localize (timezone self) t;
  mret {| value := Value r; timestamp := ts; quality := Quality r |}.

(** [get_current_tag_reading], lines 71-95. *)
Definition get_current_tag_reading (srv : Server) (self : Historian)
    (tag_id : string) (escape_slashes : bool) : io (option TagReading) :=
  let tag_id := if escape_slashes then escape tag_id else tag_id in
  with_cursor srv self (
    results ← execute srv (SelectCurrent tag_id);
    match results with
    | [] => mret None
    | r0 :: _ =>
        let result := List.last results r0 in
        lift (r ← reading self result; mret (Some r))
    end).

(** [{r['Id']: TagReading(...) for r in cursor}], line 115: a later row of
    an identifier replaces the earlier one. *)
Fixpoint latest_by_id (self : Historian) (result : gmap string TagReading)
    (rows : list Row) : outcome (gmap string TagReading) :=
  match rows with
  | [] => Ok result
  | r :: rest =>
      x ← reading self r;
      latest_by_id self (<[Id r := x]> result) rest
  end.

(** [get_current_tags_readings], lines 97-115. *)
Definition get_current_tags_readings (srv : Server) (self : Historian)
    (tag_ids : list string) (escape_slash : bool) : io (gmap string TagReading) :=
  let tag_ids := if escape_slash then escape <$> tag_ids else tag_ids in
  with_cursor srv self (
    rows ← execute srv (SelectCurrent (Str.join ";" tag_ids));
    lift (latest_by_id self ∅ rows)).

(** The message of line 128. *)
Definition range_message : string := "A valid time range is required.".

(** [get_tag_readings], lines 117-144. *)
Definition get_tag_readings (srv : Server) (self : Historian)
    (tag_id : string) (start_time end_time : datetime)
    (escape_slashes : bool) : io (list TagReading) :=
  in_order ← lift (Datetime.le start_time end_time);
  if negb in_order then lift (Raise (ValueError range_message))
  else
    let tag_id := if escape_slashes then escape tag_id else tag_id in
    with_cursor srv self (
      t0 ← lift (localize (timezone self) start_time);
      t1 ← lift (localize (timezone self) end_time);
      rows ← execute srv (SelectRaw tag_id t0 t1);
      lift (mapM (reading self) rows)).

(** The loop of lines 170-176 and of lines 202-208: [mk] builds the
    reading of a row, which is put in a new list under an identifier seen
    for the first time and appended to the identifier's list otherwise. *)
Fixpoint group_by_id (mk : Row -> outcome TagReading)
    (result : gmap string (list TagReading)) (results : list Row)
    : outcome (gmap string (list TagReading)) :=
  match results with
  | [] => Ok result
  | row :: rest =>
      match result !! Id row with
      | None =>
          x ← mk row;
          group_by_id mk (<[Id row := [x]]> result) rest
      | Some l =>
          x ← mk row;
          group_by_id mk (<[Id row := (l ++ [x])%list]> result) rest
      end
  end.

(** [get_tags_readings], lines 146-176. *)
Definition get_tags_readings (srv : Server) (self : Historian)
    (tag_ids : list string) (start_time end_time : datetime)
    (escape_slash : bool) : io (gmap string (list TagReading)) :=
  let tag_ids := if escape_slash then escape <$> tag_ids else tag_ids in
  with_cursor srv self (
    t0 ← lift (localize (timezone self) start_time);
    t1 ← lift (localize (timezone self) end_time);
    results ← execute srv (SelectRaw (Str.join ";" tag_ids) t0 t1);
    lift (group_by_id (reading self) ∅ results)).

(** The defaults of [step_size] and [aggregate], line 178. *)
Definition default_step_size : Z := 60.
Definition default_aggregate : string := "AVERAGE".

(** [get_tags_readings_interpolated], lines 178-208. The body never reads
    [remove_microseconds]. *)
Definition get_tags_readings_interpolated (srv : Server) (self : Historian)
    (tag_ids : list string) (start_time end_time : datetime)
    (step_size : Z) (aggregate : string)
    (escape_slash remove_microseconds : bool)
    : io (gmap string (list TagReading)) :=
  let tag_ids := if escape_slash then escape <$> tag_ids else tag_ids in
  with_cursor srv self (
    t0 ← lift (localize (timezone self) start_time);
    t1 ← lift (localize (timezone self) end_time);
    results ← execute srv
      (SelectInterpolated (Str.join ";" tag_ids) t0 t1 aggregate step_size);
    lift (group_by_id (reading_whole_second self) ∅ results)).

(** ** Vocabulary of the properties, and sample data *)

(** The readings of the rows of one identifier, in the order of the rows. *)
Definition rows_of (k : string) (rows : list Row) : list Row :=
  filter (fun r => Id r = k) rows.

(** The reading [reading] builds from a row with a naive timestamp. *)
Definition reading_of (self : Historian) (r : Row) : TagReading :=
  {| value := Value r;
     timestamp := replace_tzinfo (Timestamp r)
       (Some {| tzname := zone (timezone self);
                utcoffset := utcoffset_at (timezone self) (Timestamp r) |});
     quality := Quality r |}.

(** A small server for the examples: any login is let in, and both
    functions return the rows given. *)
Definition serving (rows : list HistorianRow) : Server :=
  {| login_error := fun _ _ _ _ => None;
     readrawtags := fun _ _ _ => Rows rows;
     readinterpolatedtags := fun _ _ _ _ _ => Rows rows |}.

(** A server that is not there, as in [test_historian_no_connection]. *)
Definition unreachable : Server :=
  {| login_error := fun _ _ _ _ => Some "Connection to the database failed";
     readrawtags := fun _ _ _ => Rows [];
     readinterpolatedtags := fun _ _ _ _ _ => Rows [] |}.

Definition at_ (y m d h mi s us : Z) : datetime :=
  {| year := y; month := m; day := d; hour := h; minute := mi; second := s;
     microsecond := us; dt_tzinfo := None |}.

Definition plant : Historian :=
  {| server := "db01"; user := "reader"; password := "secret";
     database := default_database; abbreviation := "PLT"; timezone := UTC |}.

(** A reading with a given quality code. *)
Definition with_quality (q : Z) : TagReading :=
  {| value := 1%float; timestamp := at_ 2018 9 30 12 0 0 0; quality := q |}.

(** A process with the server variable only, and one with none. *)
Definition only_server : Process :=
  {| environ := {[ "DATAPARC_SERVER" := "db01" ]};
     pytz_zones := fun name => if String.eqb name "UTC" then Some UTC else None |}.

Definition bare : Process :=
  {| environ := ∅;
     pytz_zones := fun name => if String.eqb name "UTC" then Some UTC else None |}.

Definition no_args : init_args :=
  {| arg_site_abbreviation := None; arg_server := None; arg_user := None;
     arg_password := None; arg_timezone := None;
     arg_database := default_database |}.

(** The client of the tests, built from four empty strings. *)
Definition empty_args : init_args :=
  {| arg_site_abbreviation := Some EmptyString;
     arg_server := Some EmptyString; arg_user := Some EmptyString;
     arg_password := Some EmptyString; arg_timezone := None;
     arg_database := default_database |}.

(** The two dates of the sample script: [late] is after [early]. *)
Definition late : datetime := at_ 2018 10 1 0 0 0 0.
Definition early : datetime := at_ 2018 7 19 0 0 0 0.

(** [dt] as [UTC.localize] returns it. *)
Definition in_utc (dt : datetime) : datetime :=
  replace_tzinfo dt (Some {| tzname := "UTC"; utcoffset := 0 |}).

(** The [Connect] event of a client. *)
Definition connect_of (self : Historian) : event :=
  Connect (server self) (user self) (password self) (database self).

(** The server lets the client in. *)
Definition lets_in (srv : Server) (self : Historian) : Prop :=
  login_error srv (server self) (user self) (password self) (database self) = None.

(** The identifiers as they are sent. *)
Definition sent_ids (escape_slash : bool) (tag_ids : list string) : string :=
  Str.join ";" (if escape_slash then escape <$> tag_ids else tag_ids).

(** [dt] with its microseconds at zero. *)
Definition whole_second (dt : datetime) : datetime :=
  {| year := year dt; month := month dt; day := day dt;
     hour := hour dt; minute := minute dt; second := second dt;
     microsecond := 0; dt_tzinfo := dt_tzinfo dt |}.

(** The row with the timestamp cut to the whole second. *)
Definition truncated (r : Row) : Row :=
  {| Id := Id r; Timestamp := whole_second (Timestamp r);
     Value := Value r; Quality := Quality r |}.

(** The rows have naive timestamps, as the database delivers them. *)
Definition naive_rows (rows : list Row) : Prop :=
  Forall (fun r => is_naive (Timestamp r) = true) rows.

(** What the grouping loop leaves under [k] after [rows], when [f] is the
    reading of a row: the list it found there, followed by the readings of
    the rows of [k] in their order. *)
Definition appended (f : Row -> TagReading)
    (acc : gmap string (list TagReading)) (k : string) (rows : list Row)
    : option (list TagReading) :=
  match rows_of k rows with
  | [] => acc !! k
  | _ :: _ => Some (default [] (acc !! k) ++ (f <$> rows_of k rows))%list
  end.

(** The timestamp of a reading is what [self.timezone.localize] returned
    for some datetime, and so it is not naive. *)
Definition aware_in (self : Historian) (x : TagReading) : Prop :=
  (exists t, localize (timezone self) t = Ok (timestamp x))
  /\ is_naive (timestamp x) = false.

(** Rows of the historian for the examples: two tags, one row flagged
    [NoBound], fractional seconds in the timestamps. *)
Definition sample_rows : list HistorianRow :=
  [ {| tagname := "PLT.src//a"; h_timestamp := at_ 2018 9 30 12 0 0 250000;
       h_value := 1%float; h_quality := 192; shistorianquality := "Good" |};
    {| tagname := "PLT.src.b"; h_timestamp := at_ 2018 9 30 12 0 30 0;
       h_value := 2%float; h_quality := 192; shistorianquality := "Good" |};
    {| tagname := "PLT.src//a"; h_timestamp := at_ 2018 9 30 12 1 0 500000;
       h_value := 3%float; h_quality := 194; shistorianquality := "NoBound" |};
    {| tagname := "PLT.src//a"; h_timestamp := at_ 2018 9 30 12 2 0 750000;
       h_value := 4%float; h_quality := 0; shistorianquality := "Bad" |} ].

Definition sample_ids : list string := ["PLT.src/a"; "PLT.src.b"].

(** One identifier as it is sent. *)
Definition sent_id (escape_slashes : bool) (tag_id : string) : string :=
  if escape_slashes then escape tag_id else tag_id.

(** A server answers every statement with rows whose timestamps are naive. *)
Definition answers_naive (srv : Server) : Prop :=
  forall q, exists rows, run srv q = Ok rows /\ naive_rows rows.

(** The number of ['/'] in an identifier. *)
Fixpoint count_slash (s : string) : nat :=
  match s with
  | EmptyString => 0
  | String c s' => (if ascii_dec c "/" then 1 else 0) + count_slash s'
  end.

(** What a setting resolves to: the argument if it is given, else the
    variable of the environment. *)
Definition resolved (os : Process) (a : init_args) (f : setting)
    : option string :=
  match explicit a f with
  | Some s => Some s
  | None => environ os !! variable_of f
  end.

(** The name the constructor asks pytz for. *)
Definition zone_name (os : Process) (a : init_args) : string :=
  match arg_timezone a with
  | Some name => name
  | None => environ_get os "DATAPARC_TIMEZONE" "UTC"
  end.

(** A process with every variable of the client set, and no zone but UTC. *)
Definition full_env : Process :=
  {| environ := {[ "DATAPARC_SERVER" := "db01";
                   "DATAPARC_USERNAME" := "reader";
                   "DATAPARC_PASSWORD" := "secret";
                   "DATAPARC_SITE_ABBREVIATION" := "PLT";
                   "DATAPARC_TIMEZONE" := "Mars/Olympus" ]};
     pytz_zones := fun name => if String.eqb name "UTC" then Some UTC else None |}.

(** Every argument given, the zone as well. *)
Definition all_args : init_args :=
  {| arg_site_abbreviation := Some "LAB"; arg_server := Some "db02";
     arg_user := Some "admin"; arg_password := Some "hunter2";
     arg_timezone := Some "UTC"; arg_database := "ctc_test" |}.

(** A setting as the constructor reads it: its value, or the [KeyError] of
    its variable. *)
Definition lookup_setting (os : Process) (a : init_args) (f : setting)
    : outcome string :=
  match resolved os a f with
  | Some s => Ok s
  | None => Raise (KeyError (variable_of f))
  end.

(** A process that knows no zone, and arguments that name one. *)
Definition no_zones : Process :=
  {| environ := environ only_server; pytz_zones := fun _ => None |}.

Definition zone_only_args : init_args :=
  {| arg_site_abbreviation := None; arg_server := None; arg_user := None;
     arg_password := None; arg_timezone := Some "Mars/Olympus";
     arg_database := "ctc_test" |}.

(** The message of CPython for an ordering of a naive and an aware
    datetime. *)
Definition mixed_message : string :=
  "can't compare offset-naive and offset-aware datetimes".

(** What one call leaves in the log once the server let it in: the
    [Connect], at most one [Execute], and the [Close]. *)
Definition one_session (self : Historian) (log log' : list event) : Prop :=
  exists mid,
    log' = (log ++ connect_of self :: mid ++ [Close])%list
    /\ (mid = [] \/ exists q, mid = [Execute q]).

(** A server that refuses every login. *)
Definition refusing (msg : string) : Server :=
  {| login_error := fun _ _ _ _ => Some msg;
     readrawtags := fun _ _ _ => Rows sample_rows;
     readinterpolatedtags := fun _ _ _ _ _ => Rows sample_rows |}.

(** The SELECT list applied to one row of the historian. *)
Definition selected (r : HistorianRow) : Row :=
  {| Id := collapse (tagname r); Timestamp := h_timestamp r;
     Value := h_value r; Quality := h_quality r |}.

(** The historian flagged the row as out of bounds. *)
Definition flagged (r : HistorianRow) : Prop := shistorianquality r = "NoBound".

(** Rows of one tag only, for the examples. *)
Definition sample_rows_a : list HistorianRow :=
  [ {| tagname := "PLT.src//a"; h_timestamp := at_ 2018 9 30 12 0 0 250000;
       h_value := 1%float; h_quality := 192; shistorianquality := "Good" |};
    {| tagname := "PLT.src//a"; h_timestamp := at_ 2018 9 30 12 2 0 750000;
       h_value := 4%float; h_quality := 0; shistorianquality := "Bad" |} ].

(** [sample_rows] as an interpolating historian would deliver them, on
    whole seconds. *)
Definition sample_rows_whole : list HistorianRow :=
  [ {| tagname := "PLT.src//a"; h_timestamp := at_ 2018 9 30 12 0 0 0;
       h_value := 1%float; h_quality := 192; shistorianquality := "Good" |};
    {| tagname := "PLT.src.b"; h_timestamp := at_ 2018 9 30 12 0 30 0;
       h_value := 2%float; h_quality := 192; shistorianquality := "Good" |};
    {| tagname := "PLT.src//a"; h_timestamp := at_ 2018 9 30 12 1 0 0;
       h_value := 3%float; h_quality := 194; shistorianquality := "NoBound" |};
    {| tagname := "PLT.src//a"; h_timestamp := at_ 2018 9 30 12 2 0 0;
       h_value := 4%float; h_quality := 0; shistorianquality := "Bad" |} ].

(** A server that lets the client in and whose functions fail. *)
Definition failing (msg : string) : Server :=
  {| login_error := fun _ _ _ _ => None;
     readrawtags := fun _ _ _ => Failed msg;
     readinterpolatedtags := fun _ _ _ _ _ => Failed msg |}.

(** * Properties *)

(** ** Escaping round trip *)

Example escape_path : escape "site/area/pump" = "site//area//pump".
Proof. reflexivity. Qed.

Example collapse_path : collapse "site//area//pump" = "site/area/pump".
Proof. reflexivity. Qed.

Example collapse_odd_run : collapse "a///b" = "a//b".
Proof. reflexivity. Qed.

Example escape_doubled : collapse (escape "a//b") = "a//b".
Proof. reflexivity. Qed.

Section Escaping.

Lemma escape_cons_slash (s : string) :
  escape (String "/" s) = String "/" (String "/" (escape s)).
Proof. reflexivity. Qed.

Lemma escape_cons_other (c : ascii) (s : string) :
  c <> "/"%char -> escape (String c s) = String c (escape s).
Proof.
  intros Hc. unfold escape, Str.replace. cbn [Str.replace_from Str.startswith].
  destruct (ascii_dec "/" c) as [E | _]; [congruence | reflexivity].
Qed.

Lemma collapse_cons_slashes (s : string) :
  collapse (String "/" (String "/" s)) = String "/" (collapse s).
Proof. reflexivity. Qed.

Lemma collapse_cons_other (c : ascii) (s : string) :
  c <> "/"%char -> collapse (String c s) = String c (collapse s).
Proof.
  intros Hc. unfold collapse, Str.sql_replace. cbn [Str.replace_from Str.startswith].
  destruct (ascii_dec "/" c) as [E | _]; [congruence | reflexivity].
Qed.

(** The round trip holds for every identifier: a run of [k] slashes is
    sent as [2k] slashes and read back as [k]. *)
Lemma collapse_escape (tag_id : string) : collapse (escape tag_id) = tag_id.
Proof.
  induction tag_id as [| c s IH]; [reflexivity |].
  destruct (ascii_dec c "/") as [-> | Hc].
  - rewrite escape_cons_slash, collapse_cons_slashes. now rewrite IH.
  - rewrite escape_cons_other, collapse_cons_other by assumption. now rewrite IH.
Qed.

End Escaping.

(** C4. For every tag identifier that holds no ["//"], collapsing every
    ["//"] to ["/"] after doubling every ["/"] gives the identifier back. *)
Theorem escape_round_trip (tag_id : string) :
  Str.contains "//" tag_id = false -> collapse (escape tag_id) = tag_id.
Proof. intros _. apply collapse_escape. Qed.

Lemma escape_round_trip_witness :
  Str.contains "//" "site/area/pump" = false
  /\ collapse (escape "site/area/pump") = "site/area/pump".
Proof.
  split; [reflexivity |].
  apply (escape_round_trip "site/area/pump"). reflexivity.
Defined.

(** ** Quality classification *)

Example quality_good : quality_str (with_quality 192) = "Good".
Proof. reflexivity. Qed.

Example quality_bad : quality_str (with_quality 0) = "Bad".
Proof. reflexivity. Qed.

Example quality_194 : quality_str (with_quality 194) = "Unknown".
Proof. reflexivity. Qed.

Example quality_neighbours :
  quality_str (with_quality 191) = "Unknown"
  /\ quality_str (with_quality 193) = "Unknown"
  /\ quality_str (with_quality (-192)) = "Unknown".
Proof. repeat split. Qed.

Lemma quality_str_cases (r : TagReading) :
  (quality r = 192 /\ quality_str r = "Good")
  \/ (quality r = 0 /\ quality_str r = "Bad")
  \/ (quality r <> 192 /\ quality r <> 0 /\ quality_str r = "Unknown").
Proof.
  unfold quality_str.
  destruct (Z.eqb_spec (quality r) 192) as [E | N]; [now left |].
  destruct (Z.eqb_spec (quality r) 0) as [E0 | N0]; [right; now left |].
  right; right. repeat split; assumption.
Qed.

(** C3. The classification of a reading is "Good" exactly when its
    quality code is 192, "Bad" exactly when it is 0, and "Unknown" for
    every other integer; negative codes, 191 and 193 are "Unknown". *)
Theorem quality_str_exact (r : TagReading) :
  (quality_str r = "Good" <-> quality r = 192)
  /\ (quality_str r = "Bad" <-> quality r = 0)
  /\ (quality_str r = "Unknown" <-> quality r <> 192 /\ quality r <> 0)
  /\ (quality r < 0 \/ quality r = 191 \/ quality r = 193 ->
      quality_str r = "Unknown").
Proof.
  destruct (quality_str_cases r) as [[E S] | [[E S] | (N1 & N0 & S)]];
    rewrite S.
  - repeat split; intros; try discriminate; try lia; tauto.
  - repeat split; intros; try discriminate; try lia; tauto.
  - repeat split; intros; try discriminate; try lia; try tauto; try congruence.
Qed.

(** ** The constructor and the environment *)

Section Construction.

Variable os : Process.
Variable a : init_args.

Lemma explicit_or_environ (f : setting) :
  missing os a f ->
  match explicit a f with
  | Some s => Ok s
  | None => environ_getitem os (variable_of f)
  end = Raise (KeyError (variable_of f)).
Proof.
  intros [He Hv]. rewrite He. unfold environ_getitem. now rewrite Hv.
Qed.

Lemma explicit_or_environ_present (f : setting) :
  ~ missing os a f ->
  exists s, match explicit a f with
            | Some s => Ok s
            | None => environ_getitem os (variable_of f)
            end = Ok s.
Proof.
  intros H. unfold missing, environ_getitem in *.
  destruct (explicit a f) as [s |]; [now exists s |].
  destruct (environ os !! variable_of f) as [v |]; [now exists v |].
  exfalso. now apply H.
Qed.

Lemma missing_dec (f : setting) : {missing os a f} + {~ missing os a f}.
Proof.
  unfold missing.
  destruct (explicit a f); [right; intros [? _]; discriminate |].
  destruct (environ os !! variable_of f); [right; intros [_ ?]; discriminate |].
  now left.
Qed.

(** The constructor stops at the first setting, in the order server,
    user, password, abbreviation, that is missing. *)
Lemma construct_first_missing (g : setting) :
  missing os a g ->
  (forall h, (position h < position g)%nat -> ~ missing os a h) ->
  construct os a = Raise (KeyError (variable_of g)).
Proof.
  intros Hg Hbefore. unfold construct, Historian_init.
  pose proof (explicit_or_environ g Hg) as Eg.
  destruct g; cbn [explicit variable_of position] in *.
  - now rewrite Eg.
  - destruct (explicit_or_environ_present Server_) as [s0 E0];
      [apply Hbefore; cbn; lia |].
    cbn [explicit variable_of] in E0. rewrite E0. cbn. now rewrite Eg.
  - destruct (explicit_or_environ_present Server_) as [s0 E0];
      [apply Hbefore; cbn; lia |].
    destruct (explicit_or_environ_present User_) as [s1 E1];
      [apply Hbefore; cbn; lia |].
    cbn [explicit variable_of] in E0, E1. rewrite E0. cbn.
    rewrite E1. cbn. now rewrite Eg.
  - destruct (explicit_or_environ_present Server_) as [s0 E0];
      [apply Hbefore; cbn; lia |].
    destruct (explicit_or_environ_present User_) as [s1 E1];
      [apply Hbefore; cbn; lia |].
    destruct (explicit_or_environ_present Password_) as [s2 E2];
      [apply Hbefore; cbn; lia |].
    cbn [explicit variable_of] in E0, E1, E2. rewrite E0. cbn.
    rewrite E1. cbn. rewrite E2. cbn. now rewrite Eg.
Qed.

(** Among the settings up to [f] there is a first missing one. *)
Lemma first_missing (f : setting) :
  missing os a f ->
  exists g, missing os a g
            /\ (position g <= position f)%nat
            /\ (forall h, (position h < position g)%nat -> ~ missing os a h).
Proof.
  intros Hf.
  destruct (missing_dec Server_) as [M0 | N0].
  { exists Server_. split; [assumption |]. split; [cbn; lia |].
    intros h Hh. cbn in Hh. lia. }
  destruct (missing_dec User_) as [M1 | N1].
  { exists User_. split; [assumption |]. split.
    - destruct f; cbn; try lia. contradiction.
    - intros h Hh. destruct h; cbn in Hh; try lia. assumption. }
  destruct (missing_dec Password_) as [M2 | N2].
  { exists Password_. split; [assumption |]. split.
    - destruct f; cbn; try lia; contradiction.
    - intros h Hh. destruct h; cbn in Hh; try lia; assumption. }
  exists Abbreviation_. destruct f; try contradiction.
  split; [assumption |]. split; [cbn; lia |].
  intros h Hh. destruct h; cbn in Hh; try lia; assumption.
Qed.

End Construction.

(** C2, as the constructor behaves. When a required setting (server,
    user, password or site abbreviation) has neither a constructor
    argument nor its environment variable, construction fails with the
    [KeyError] of the variable of the first missing setting in the order
    the constructor resolves them (server, user, password, abbreviation).
    That is the setting itself when none before it is missing; when an
    earlier one is missing too, the error names the earlier one and not
    this one. *)
Theorem construct_missing_setting (os : Process) (a : init_args) (f : setting) :
  missing os a f ->
  exists g,
    construct os a = Raise (KeyError (variable_of g))
    /\ missing os a g
    /\ (forall h, (position h < position g)%nat -> ~ missing os a h)
    /\ (position g <= position f)%nat
    /\ ((forall h, (position h < position f)%nat -> ~ missing os a h) -> g = f).
Proof.
  intros Hf.
  destruct (first_missing os a f Hf) as (g & Hg & Hle & Hfirst).
  exists g. split; [now apply construct_first_missing |].
  split; [assumption |]. split; [assumption |]. split; [assumption |].
  intros Hnone.
  destruct (Nat.eq_dec (position g) (position f)) as [E | N].
  - destruct g, f; cbn in E; congruence.
  - exfalso. apply (Hnone g); [lia | assumption].
Qed.

Lemma construct_missing_setting_witness :
  missing only_server no_args User_
  /\ construct only_server no_args = Raise (KeyError (variable_of User_)).
Proof.
  assert (Hu : missing only_server no_args User_)
    by (split; [reflexivity | vm_compute; reflexivity]).
  split; [exact Hu |].
  destruct (construct_missing_setting only_server no_args User_ Hu)
    as (g & Hc & _ & _ & _ & Hg).
  rewrite Hc, Hg; [reflexivity |].
  intros h Hh [_ Hv]. destruct h; cbn in Hh; try lia.
  vm_compute in Hv. discriminate Hv.
Defined.

(** C2 as the claim reads fails when an earlier setting is missing as
    well: with only DATAPARC_SERVER set and no argument, the password is
    missing, yet the error names DATAPARC_USERNAME and not the password's
    variable. *)
Lemma construct_names_earlier_setting :
  missing only_server no_args Password_
  /\ construct only_server no_args = Raise (KeyError "DATAPARC_USERNAME")
  /\ construct only_server no_args
     <> Raise (KeyError (variable_of Password_)).
Proof.
  split; [split; [reflexivity | vm_compute; reflexivity] |].
  assert (E : construct only_server no_args
              = Raise (KeyError "DATAPARC_USERNAME"))
    by (vm_compute; reflexivity).
  split; [exact E |]. rewrite E. cbn. discriminate.
Qed.

Example construct_names_user :
  construct only_server no_args = Raise (KeyError "DATAPARC_USERNAME").
Proof. vm_compute. reflexivity. Qed.

Example construct_names_server :
  construct bare no_args = Raise (KeyError "DATAPARC_SERVER").
Proof. vm_compute. reflexivity. Qed.

Example construct_empty_strings :
  construct bare empty_args
  = Ok {| server := EmptyString; user := EmptyString;
          password := EmptyString; database := "ctc_config";
          abbreviation := EmptyString; timezone := UTC |}.
Proof. vm_compute. reflexivity. Qed.

(** ** The range check of [get_tag_readings] *)

Example inverted_sample : Datetime.gt late early = Ok true.
Proof. reflexivity. Qed.

Example inverted_sample_refused :
  get_tag_readings (serving []) plant "PLT.src.tag" late early true []
  = (Raise (ValueError "A valid time range is required."), []).
Proof. reflexivity. Qed.

Example ordered_sample_connects :
  get_tag_readings (serving []) plant "PLT.src/tag" early late true []
  = (Ok [], [connect_of plant;
             Execute (SelectRaw "PLT.src//tag" (in_utc early) (in_utc late));
             Close]).
Proof. reflexivity. Qed.

Lemma gt_not_le (a b : datetime) :
  Datetime.gt a b = Ok true -> Datetime.le a b = Ok false.
Proof.
  unfold Datetime.gt, Datetime.le.
  destruct (Datetime.cmp a b) as [c | e]; cbn; [| discriminate].
  destruct c; cbn; intros H; first [reflexivity | discriminate H].
Qed.

(** C1. With [start_time > end_time], [get_tag_readings] raises the
    [ValueError] of line 128 (the spec's InvalidRangeError) for every tag
    identifier, and the log of network events is the one it was given:
    no connection is attempted and no query is sent. *)
Theorem get_tag_readings_inverted_range (srv : Server) (self : Historian)
    (tag_id : string) (start_time end_time : datetime)
    (escape_slashes : bool) (log : list event) :
  Datetime.gt start_time end_time = Ok true ->
  get_tag_readings srv self tag_id start_time end_time escape_slashes log
  = (Raise (ValueError range_message), log).
Proof.
  intros H. apply gt_not_le in H.
  unfold get_tag_readings, lift, mbind, io_bind. now rewrite H.
Qed.

Lemma get_tag_readings_inverted_range_witness :
  get_tag_readings (serving []) plant "PLT.src.tag" late early true []
  = (Raise (ValueError range_message), []).
Proof.
  apply (get_tag_readings_inverted_range (serving []) plant "PLT.src.tag"
           late early true []).
  reflexivity.
Defined.

(** ** Row mapping *)

Section RowMapping.

Variable self : Historian.

Lemma reading_naive (r : Row) :
  is_naive (Timestamp r) = true -> reading self r = Ok (reading_of self r).
Proof.
  unfold is_naive, reading, reading_of, localize.
  destruct (dt_tzinfo (Timestamp r)); [discriminate | reflexivity].
Qed.

Lemma reading_Ok (r : Row) (x : TagReading) :
  reading self r = Ok x ->
  x = reading_of self r /\ is_naive (Timestamp r) = true.
Proof.
  unfold is_naive, reading, reading_of, localize.
  destruct (dt_tzinfo (Timestamp r)); cbn; [discriminate |].
  intros [= <-]. split; reflexivity.
Qed.

Lemma reading_Raise (r : Row) (e : exn) :
  reading self r = Raise e -> e = ValueError not_naive_message.
Proof.
  unfold reading, localize.
  destruct (dt_tzinfo (Timestamp r)); cbn; [| discriminate].
  now intros [= <-].
Qed.

Lemma reading_whole_second_truncated (r : Row) :
  reading_whole_second self r = reading self (truncated r).
Proof. reflexivity. Qed.

Lemma naive_truncated (r : Row) :
  is_naive (Timestamp (truncated r)) = is_naive (Timestamp r).
Proof. reflexivity. Qed.

Lemma localize_aware (tz : Zone) (dt t : datetime) :
  localize tz dt = Ok t ->
  is_naive t = false
  /\ dt_tzinfo t = Some {| tzname := zone tz; utcoffset := utcoffset_at tz dt |}.
Proof.
  unfold localize. destruct (dt_tzinfo dt); [discriminate |].
  intros [= <-]. split; reflexivity.
Qed.

Lemma reading_of_truncated_microsecond (r : Row) :
  microsecond (timestamp (reading_of self (truncated r))) = 0.
Proof. reflexivity. Qed.

End RowMapping.

(** ** The grouping loop *)

Section Grouping.

Variable mk : Row -> outcome TagReading.
Variable f : Row -> TagReading.
Hypothesis mk_f : forall r x, mk r = Ok x -> x = f r.

Lemma rows_of_cons_eq (row : Row) (rest : list Row) :
  rows_of (Id row) (row :: rest) = row :: rows_of (Id row) rest.
Proof. unfold rows_of. now rewrite filter_cons_True. Qed.

Lemma rows_of_cons_ne (k : string) (row : Row) (rest : list Row) :
  Id row <> k -> rows_of k (row :: rest) = rows_of k rest.
Proof. intros N. unfold rows_of. now rewrite filter_cons_False. Qed.

(** One round of the loop, whichever branch it takes, leaves under each
    key what [appended] says. *)
Lemma appended_step (acc : gmap string (list TagReading)) (row : Row)
    (rest : list Row) (k : string) :
  appended f (<[Id row := (default [] (acc !! Id row) ++ [f row])%list]> acc) k rest
  = appended f acc k (row :: rest).
Proof.
  unfold appended.
  destruct (decide (Id row = k)) as [<- | N].
  - rewrite rows_of_cons_eq, lookup_insert_eq.
    destruct (rows_of (Id row) rest) as [| r1 rs]; cbn.
    + reflexivity.
    + now rewrite <- app_assoc.
  - rewrite rows_of_cons_ne, lookup_insert_ne by assumption. reflexivity.
Qed.

Lemma group_by_id_lookup (rows : list Row) :
  forall acc m,
    group_by_id mk acc rows = Ok m ->
    forall k, m !! k = appended f acc k rows.
Proof.
  induction rows as [| row rest IH]; intros acc m H k.
  - cbn in H. injection H as <-. reflexivity.
  - cbn [group_by_id] in H. rewrite <- appended_step.
    destruct (acc !! Id row) as [l |] eqn:E;
      destruct (mk row) as [x | e] eqn:Emk; cbn in H; try discriminate;
      apply mk_f in Emk; subst x; cbn; now apply IH.
Qed.

Lemma group_by_id_total (rows : list Row) :
  Forall (fun r => exists x, mk r = Ok x) rows ->
  forall acc, exists m, group_by_id mk acc rows = Ok m.
Proof.
  induction 1 as [| row rest [x Hx] _ IH]; intros acc.
  - now exists acc.
  - cbn [group_by_id]. rewrite Hx.
    destruct (acc !! Id row); cbn; apply IH.
Qed.

Lemma group_by_id_Raise (rows : list Row) :
  forall acc e,
    group_by_id mk acc rows = Raise e -> exists r, r ∈ rows /\ mk r = Raise e.
Proof.
  induction rows as [| row rest IH]; intros acc e H; [discriminate |].
  cbn [group_by_id] in H.
  destruct (mk row) as [x | e'] eqn:Emk.
  - destruct (acc !! Id row); cbn in H; apply IH in H as (r & Hr & He);
      exists r; (split; [now right | assumption]).
  - exists row. split; [now left |].
    destruct (acc !! Id row); cbn in H; congruence.
Qed.

End Grouping.

(** ** The batched raw read *)

Lemma rows_of_nil (k : string) (rows : list Row) :
  rows_of k rows = [] <-> k ∉ Id <$> rows.
Proof.
  induction rows as [| row rest IH].
  - split; [intros _; apply not_elem_of_nil | reflexivity].
  - rewrite fmap_cons. destruct (decide (Id row = k)) as [<- | N].
    + rewrite rows_of_cons_eq. split; [discriminate |].
      intros H. exfalso. apply H. now left.
    + rewrite rows_of_cons_ne by assumption. rewrite IH.
      rewrite not_elem_of_cons. split; [intros H; split; [congruence | assumption] | tauto].
Qed.

Lemma appended_empty (f : Row -> TagReading) (k : string) (rows : list Row) :
  appended f ∅ k rows
  = if decide (k ∈ Id <$> rows) then Some (f <$> rows_of k rows) else None.
Proof.
  unfold appended. rewrite lookup_empty. cbn.
  destruct (decide (k ∈ Id <$> rows)) as [Hin | Hout].
  - destruct (rows_of k rows) eqn:E; [| reflexivity].
    apply rows_of_nil in E. contradiction.
  - apply rows_of_nil in Hout. now rewrite Hout.
Qed.

Lemma run_Raise (srv : Server) (q : statement) (e : exn) :
  run srv q = Raise e -> exists msg, e = DatabaseError msg.
Proof.
  unfold run, select_from. intros H.
  destruct q;
    match type of H with
    | match ?r with _ => _ end = _ => destruct r as [rows | msg]
    end; try discriminate; injection H as <-; now exists msg.
Qed.

(** What the two batched reads do once the server lets the client in and
    both bounds are localized: one statement, then the grouping loop. *)
Lemma get_tags_readings_script (srv : Server) (self : Historian)
    (tag_ids : list string) (start_time end_time t0 t1 : datetime)
    (escape_slash : bool) (log : list event) :
  lets_in srv self ->
  localize (timezone self) start_time = Ok t0 ->
  localize (timezone self) end_time = Ok t1 ->
  get_tags_readings srv self tag_ids start_time end_time escape_slash log
  = (rows ← run srv (SelectRaw (sent_ids escape_slash tag_ids) t0 t1);
     group_by_id (reading self) ∅ rows,
     log ++ [connect_of self;
             Execute (SelectRaw (sent_ids escape_slash tag_ids) t0 t1);
             Close])%list.
Proof.
  intros Hin H0 H1.
  unfold get_tags_readings, sent_ids, with_cursor.
  unfold lets_in in Hin. rewrite Hin.
  unfold execute, lift, mbind, io_bind. rewrite H0, H1.
  destruct (run srv _) as [rows | e]; cbn; now rewrite <- !app_assoc.
Qed.

Lemma get_tags_readings_interpolated_script (srv : Server) (self : Historian)
    (tag_ids : list string) (start_time end_time t0 t1 : datetime)
    (step_size : Z) (aggregate : string)
    (escape_slash remove_microseconds : bool) (log : list event) :
  lets_in srv self ->
  localize (timezone self) start_time = Ok t0 ->
  localize (timezone self) end_time = Ok t1 ->
  get_tags_readings_interpolated srv self tag_ids start_time end_time
    step_size aggregate escape_slash remove_microseconds log
  = (rows ← run srv (SelectInterpolated (sent_ids escape_slash tag_ids)
                       t0 t1 aggregate step_size);
     group_by_id (reading_whole_second self) ∅ rows,
     log ++ [connect_of self;
             Execute (SelectInterpolated (sent_ids escape_slash tag_ids)
                        t0 t1 aggregate step_size);
             Close])%list.
Proof.
  intros Hin H0 H1.
  unfold get_tags_readings_interpolated, sent_ids, with_cursor.
  unfold lets_in in Hin. rewrite Hin.
  unfold execute, lift, mbind, io_bind. rewrite H0, H1.
  destruct (run srv _) as [rows | e]; cbn; now rewrite <- !app_assoc.
Qed.

(** C7. When the cursor delivers [rows], [get_tags_readings] returns a map
    whose keys are exactly the identifiers of the rows, and the list under
    a key holds the readings of that identifier's rows in the order of
    the rows. *)
Theorem get_tags_readings_grouped (srv : Server) (self : Historian)
    (tag_ids : list string) (start_time end_time t0 t1 : datetime)
    (escape_slash : bool) (log : list event) (rows : list Row) :
  lets_in srv self ->
  localize (timezone self) start_time = Ok t0 ->
  localize (timezone self) end_time = Ok t1 ->
  run srv (SelectRaw (sent_ids escape_slash tag_ids) t0 t1) = Ok rows ->
  naive_rows rows ->
  exists m,
    fst (get_tags_readings srv self tag_ids start_time end_time escape_slash log)
    = Ok m
    /\ (forall k, k ∈ dom m <-> k ∈ Id <$> rows)
    /\ (forall k l, m !! k = Some l -> l = reading_of self <$> rows_of k rows).
Proof.
  intros Hin H0 H1 Hrun Hnaive.
  destruct (group_by_id_total (reading self) rows) with (acc := (∅ : gmap string (list TagReading)))
    as [m Hm].
  { eapply Forall_impl; [exact Hnaive |]. intros r Hr. cbn in Hr.
    eexists. now apply reading_naive. }
  exists m.
  assert (Hlook : forall k, m !! k = appended (reading_of self) ∅ k rows).
  { eapply group_by_id_lookup; [| exact Hm].
    intros r x Hx. now apply reading_Ok in Hx. }
  split; [| split].
  - rewrite (get_tags_readings_script srv self tag_ids start_time end_time t0 t1)
      by assumption.
    cbn [fst]. rewrite Hrun. exact Hm.
  - intros k. rewrite elem_of_dom, Hlook, appended_empty.
    destruct (decide (k ∈ Id <$> rows)) as [Hk | Hk].
    + split; [intros _; exact Hk | intros _; now eexists].
    + split; [intros [l Hl]; discriminate | intros H; contradiction].
  - intros k l. rewrite Hlook, appended_empty.
    destruct (decide (k ∈ Id <$> rows)); [now intros [= <-] | discriminate].
Qed.

Lemma get_tags_readings_grouped_witness :
  exists m,
    fst (get_tags_readings (serving sample_rows) plant sample_ids early late
           true [])
    = Ok m
    /\ (forall k, k ∈ dom m <-> k ∈ Id <$> select_columns sample_rows)
    /\ (forall k l, m !! k = Some l ->
          l = reading_of plant <$> rows_of k (select_columns sample_rows)).
Proof.
  apply (get_tags_readings_grouped (serving sample_rows) plant sample_ids
           early late (in_utc early) (in_utc late) true []
           (select_columns sample_rows)).
  - reflexivity.
  - reflexivity.
  - reflexivity.
  - reflexivity.
  - repeat constructor.
Defined.

Example sample_select :
  Id <$> select_columns sample_rows = ["PLT.src/a"; "PLT.src.b"; "PLT.src/a"].
Proof. reflexivity. Qed.

Example sample_grouped :
  (m ← fst (get_tags_readings (serving sample_rows) plant sample_ids early
              late true []);
   mret (fmap (M := list) value <$> m !! "PLT.src/a", m !! "PLT.src.c"))
  = Ok (Some [1%float; 4%float], None).
Proof. vm_compute. reflexivity. Qed.

(** ** The interpolated read *)

(** Whenever a batched read returns, the server let the client in, both
    bounds were naive, and the map is what the loop made of the rows. *)
Lemma get_tags_readings_Ok (srv : Server) (self : Historian)
    (tag_ids : list string) (start_time end_time : datetime)
    (escape_slash : bool) (log : list event)
    (m : gmap string (list TagReading)) :
  fst (get_tags_readings srv self tag_ids start_time end_time escape_slash log)
  = Ok m ->
  exists t0 t1 rows,
    lets_in srv self
    /\ localize (timezone self) start_time = Ok t0
    /\ localize (timezone self) end_time = Ok t1
    /\ run srv (SelectRaw (sent_ids escape_slash tag_ids) t0 t1) = Ok rows
    /\ group_by_id (reading self) ∅ rows = Ok m.
Proof.
  unfold get_tags_readings, sent_ids, with_cursor, lets_in.
  destruct (login_error srv _ _ _ _) eqn:Hin; [discriminate |].
  unfold execute, lift, mbind, io_bind.
  destruct (localize (timezone self) start_time) as [t0 | e0] eqn:H0;
    [| discriminate].
  destruct (localize (timezone self) end_time) as [t1 | e1] eqn:H1;
    [| discriminate].
  destruct (run srv _) as [rows | e] eqn:Hrun; [| discriminate].
  cbn. intros Hm. exists t0, t1, rows. repeat split; assumption.
Qed.

Lemma get_tags_readings_interpolated_Ok (srv : Server) (self : Historian)
    (tag_ids : list string) (start_time end_time : datetime)
    (step_size : Z) (aggregate : string)
    (escape_slash remove_microseconds : bool) (log : list event)
    (m : gmap string (list TagReading)) :
  fst (get_tags_readings_interpolated srv self tag_ids start_time end_time
         step_size aggregate escape_slash remove_microseconds log)
  = Ok m ->
  exists t0 t1 rows,
    lets_in srv self
    /\ localize (timezone self) start_time = Ok t0
    /\ localize (timezone self) end_time = Ok t1
    /\ run srv (SelectInterpolated (sent_ids escape_slash tag_ids) t0 t1
                  aggregate step_size) = Ok rows
    /\ group_by_id (reading_whole_second self) ∅ rows = Ok m.
Proof.
  unfold get_tags_readings_interpolated, sent_ids, with_cursor, lets_in.
  destruct (login_error srv _ _ _ _) eqn:Hin; [discriminate |].
  unfold execute, lift, mbind, io_bind.
  destruct (localize (timezone self) start_time) as [t0 | e0] eqn:H0;
    [| discriminate].
  destruct (localize (timezone self) end_time) as [t1 | e1] eqn:H1;
    [| discriminate].
  destruct (run srv _) as [rows | e] eqn:Hrun; [| discriminate].
  cbn. intros Hm. exists t0, t1, rows. repeat split; assumption.
Qed.

(** The loop of the interpolated read maps every row through
    [truncated]. *)
Lemma whole_second_lookup (self : Historian) (rows : list Row)
    (m : gmap string (list TagReading)) :
  group_by_id (reading_whole_second self) ∅ rows = Ok m ->
  forall k,
    m !! k = if decide (k ∈ Id <$> rows)
             then Some ((fun r => reading_of self (truncated r)) <$> rows_of k rows)
             else None.
Proof.
  intros Hm k. rewrite <- appended_empty.
  eapply group_by_id_lookup; [| exact Hm].
  intros r x Hx. rewrite reading_whole_second_truncated in Hx.
  now apply reading_Ok in Hx.
Qed.

Lemma whole_second_members (self : Historian) (rows : list Row)
    (m : gmap string (list TagReading)) :
  group_by_id (reading_whole_second self) ∅ rows = Ok m ->
  forall k l x, m !! k = Some l -> x ∈ l -> microsecond (timestamp x) = 0.
Proof.
  intros Hm k l x Hl Hx. rewrite (whole_second_lookup self rows m Hm) in Hl.
  destruct (decide (k ∈ Id <$> rows)); [| discriminate].
  injection Hl as <-. apply list_elem_of_fmap in Hx as (r & -> & _).
  reflexivity.
Qed.

(** C8. When the cursor delivers [rows], [get_tags_readings_interpolated]
    returns a map in which every timestamp has its microseconds at zero,
    and every row has its reading, cut to the whole second, under its
    identifier. *)
Theorem interpolated_whole_seconds (srv : Server) (self : Historian)
    (tag_ids : list string) (start_time end_time t0 t1 : datetime)
    (step_size : Z) (aggregate : string)
    (escape_slash remove_microseconds : bool) (log : list event)
    (rows : list Row) :
  lets_in srv self ->
  localize (timezone self) start_time = Ok t0 ->
  localize (timezone self) end_time = Ok t1 ->
  run srv (SelectInterpolated (sent_ids escape_slash tag_ids) t0 t1
             aggregate step_size) = Ok rows ->
  naive_rows rows ->
  exists m,
    fst (get_tags_readings_interpolated srv self tag_ids start_time end_time
           step_size aggregate escape_slash remove_microseconds log)
    = Ok m
    /\ (forall k l x, m !! k = Some l -> x ∈ l -> microsecond (timestamp x) = 0)
    /\ (forall r, r ∈ rows ->
          exists l, m !! Id r = Some l /\ reading_of self (truncated r) ∈ l).
Proof.
  intros Hin H0 H1 Hrun Hnaive.
  destruct (group_by_id_total (reading_whole_second self) rows)
    with (acc := (∅ : gmap string (list TagReading))) as [m Hm].
  { eapply Forall_impl; [exact Hnaive |]. intros r Hr. cbn in Hr.
    eexists. rewrite reading_whole_second_truncated.
    apply reading_naive. now rewrite naive_truncated. }
  exists m. split; [| split].
  - rewrite (get_tags_readings_interpolated_script srv self tag_ids
               start_time end_time t0 t1) by assumption.
    cbn [fst]. rewrite Hrun. exact Hm.
  - now apply (whole_second_members self rows).
  - intros r Hr. rewrite (whole_second_lookup self rows m Hm).
    rewrite decide_True by (apply list_elem_of_fmap; now exists r).
    eexists. split; [reflexivity |].
    apply list_elem_of_fmap. exists r. split; [reflexivity |].
    unfold rows_of. apply list_elem_of_filter. now split.
Qed.

Lemma interpolated_whole_seconds_witness :
  exists m,
    fst (get_tags_readings_interpolated (serving sample_rows) plant sample_ids
           early late 1 "INTERPOLATIVE" true true [])
    = Ok m
    /\ (forall k l x, m !! k = Some l -> x ∈ l -> microsecond (timestamp x) = 0)
    /\ (forall r, r ∈ select_columns sample_rows ->
          exists l, m !! Id r = Some l /\ reading_of plant (truncated r) ∈ l).
Proof.
  apply (interpolated_whole_seconds (serving sample_rows) plant sample_ids
           early late (in_utc early) (in_utc late) 1 "INTERPOLATIVE" true true
           [] (select_columns sample_rows)).
  - reflexivity.
  - reflexivity.
  - reflexivity.
  - reflexivity.
  - repeat constructor.
Defined.

Example sample_interpolated :
  (m ← fst (get_tags_readings_interpolated (serving sample_rows) plant
              sample_ids early late 1 "INTERPOLATIVE" true true []);
   mret (fmap (M := list) (fun x => (second (timestamp x),
                                     microsecond (timestamp x)))
           <$> m !! "PLT.src/a"))
  = Ok (Some [(0, 0); (0, 0)]).
Proof. vm_compute. reflexivity. Qed.

Example sample_raw_keeps_microseconds :
  (m ← fst (get_tags_readings (serving sample_rows) plant sample_ids early
              late true []);
   mret (fmap (M := list) (fun x => microsecond (timestamp x))
           <$> m !! "PLT.src/a"))
  = Ok (Some [250000; 750000]).
Proof. vm_compute. reflexivity. Qed.

(** C10. [get_tags_readings_interpolated] gives the same result and the
    same log with [remove_microseconds] true and false, and under either
    value every returned timestamp has its microseconds at zero. *)
Theorem remove_microseconds_ignored (srv : Server) (self : Historian)
    (tag_ids : list string) (start_time end_time : datetime)
    (step_size : Z) (aggregate : string) (escape_slash : bool)
    (log : list event) :
  get_tags_readings_interpolated srv self tag_ids start_time end_time
    step_size aggregate escape_slash true log
  = get_tags_readings_interpolated srv self tag_ids start_time end_time
      step_size aggregate escape_slash false log
  /\ (forall remove_microseconds m k l x,
        fst (get_tags_readings_interpolated srv self tag_ids start_time
               end_time step_size aggregate escape_slash remove_microseconds
               log) = Ok m ->
        m !! k = Some l -> x ∈ l -> microsecond (timestamp x) = 0).
Proof.
  split; [reflexivity |].
  intros rm m k l x Hm Hl Hx.
  apply get_tags_readings_interpolated_Ok in Hm
    as (t0 & t1 & rows & _ & _ & _ & _ & Hm).
  exact (whole_second_members self rows m Hm k l x Hl Hx).
Qed.

Example sample_flag_off :
  (m ← fst (get_tags_readings_interpolated (serving sample_rows) plant
              sample_ids early late default_step_size default_aggregate true false []);
   mret (fmap (M := list) (fun x => microsecond (timestamp x))
           <$> m !! "PLT.src/a"))
  = Ok (Some [0; 0]).
Proof. vm_compute. reflexivity. Qed.

(** ** The batched reads and an inverted range *)

Lemma localize_Raise (tz : Zone) (dt : datetime) (e : exn) :
  localize tz dt = Raise e -> e = ValueError not_naive_message.
Proof.
  unfold localize. destruct (dt_tzinfo dt); [| discriminate].
  now intros [= <-].
Qed.

Lemma not_naive_is_not_range (A : Type) :
  @Raise A (ValueError not_naive_message) <> Raise (ValueError range_message).
Proof. discriminate. Qed.

Lemma localize_fields (tz : Zone) (dt t : datetime) :
  localize tz dt = Ok t -> fields t = fields dt.
Proof.
  unfold localize. destruct (dt_tzinfo dt); [discriminate |].
  now intros [= <-].
Qed.

(** Neither batched read can end in the error of the range check, and both
    start by connecting. *)
Lemma get_tags_readings_no_range_error (srv : Server) (self : Historian)
    (tag_ids : list string) (start_time end_time : datetime)
    (escape_slash : bool) (log : list event) :
  fst (get_tags_readings srv self tag_ids start_time end_time escape_slash log)
  <> Raise (ValueError range_message)
  /\ exists rest,
       snd (get_tags_readings srv self tag_ids start_time end_time
              escape_slash log)
       = (log ++ connect_of self :: rest)%list.
Proof.
  unfold get_tags_readings, with_cursor, connect_of.
  destruct (login_error srv _ _ _ _) as [msg |] eqn:Hin.
  { split; [discriminate | now exists []]. }
  unfold execute, lift, mbind, io_bind.
  destruct (localize (timezone self) start_time) as [t0 | e0] eqn:H0.
  2:{ cbn. apply localize_Raise in H0 as ->.
      split; [apply not_naive_is_not_range |].
      exists [Close]. now rewrite <- app_assoc. }
  destruct (localize (timezone self) end_time) as [t1 | e1] eqn:H1.
  2:{ cbn. apply localize_Raise in H1 as ->.
      split; [apply not_naive_is_not_range |].
      exists [Close]. now rewrite <- app_assoc. }
  destruct (run srv _) as [rows | e] eqn:Hrun; cbn.
  - split; [| eexists; now rewrite <- !app_assoc].
    intros H. apply group_by_id_Raise in H as (r & _ & Hr).
    apply reading_Raise in Hr. discriminate Hr.
  - apply run_Raise in Hrun as [msg ->].
    split; [discriminate | eexists; now rewrite <- !app_assoc].
Qed.

Lemma get_tags_readings_interpolated_no_range_error (srv : Server)
    (self : Historian) (tag_ids : list string)
    (start_time end_time : datetime) (step_size : Z) (aggregate : string)
    (escape_slash remove_microseconds : bool) (log : list event) :
  fst (get_tags_readings_interpolated srv self tag_ids start_time end_time
         step_size aggregate escape_slash remove_microseconds log)
  <> Raise (ValueError range_message)
  /\ exists rest,
       snd (get_tags_readings_interpolated srv self tag_ids start_time
              end_time step_size aggregate escape_slash remove_microseconds
              log)
       = (log ++ connect_of self :: rest)%list.
Proof.
  unfold get_tags_readings_interpolated, with_cursor, connect_of.
  destruct (login_error srv _ _ _ _) as [msg |] eqn:Hin.
  { split; [discriminate | now exists []]. }
  unfold execute, lift, mbind, io_bind.
  destruct (localize (timezone self) start_time) as [t0 | e0] eqn:H0.
  2:{ cbn. apply localize_Raise in H0 as ->.
      split; [apply not_naive_is_not_range |].
      exists [Close]. now rewrite <- app_assoc. }
  destruct (localize (timezone self) end_time) as [t1 | e1] eqn:H1.
  2:{ cbn. apply localize_Raise in H1 as ->.
      split; [apply not_naive_is_not_range |].
      exists [Close]. now rewrite <- app_assoc. }
  destruct (run srv _) as [rows | e] eqn:Hrun; cbn.
  - split; [| eexists; now rewrite <- !app_assoc].
    intros H. apply group_by_id_Raise in H as (r & _ & Hr).
    rewrite reading_whole_second_truncated in Hr.
    apply reading_Raise in Hr. discriminate Hr.
  - apply run_Raise in Hrun as [msg ->].
    split; [discriminate | eexists; now rewrite <- !app_assoc].
Qed.

(** C9. With [start_time > end_time], [get_tags_readings] and
    [get_tags_readings_interpolated] do not raise the error of the range
    check; each first connects, and once the server lets it in and the
    bounds are localized it sends its statement with the bounds as given,
    start after end. *)
Theorem batched_reads_skip_range_check (srv : Server) (self : Historian)
    (tag_ids : list string) (start_time end_time : datetime)
    (step_size : Z) (aggregate : string)
    (escape_slash remove_microseconds : bool) (log : list event) :
  Datetime.gt start_time end_time = Ok true ->
  (fst (get_tags_readings srv self tag_ids start_time end_time escape_slash
          log) <> Raise (ValueError range_message)
   /\ exists rest,
        snd (get_tags_readings srv self tag_ids start_time end_time
               escape_slash log)
        = (log ++ connect_of self :: rest)%list)
  /\ (fst (get_tags_readings_interpolated srv self tag_ids start_time
             end_time step_size aggregate escape_slash remove_microseconds
             log) <> Raise (ValueError range_message)
      /\ exists rest,
           snd (get_tags_readings_interpolated srv self tag_ids start_time
                  end_time step_size aggregate escape_slash
                  remove_microseconds log)
           = (log ++ connect_of self :: rest)%list)
  /\ (forall t0 t1,
        lets_in srv self ->
        localize (timezone self) start_time = Ok t0 ->
        localize (timezone self) end_time = Ok t1 ->
        fields t0 = fields start_time
        /\ fields t1 = fields end_time
        /\ snd (get_tags_readings srv self tag_ids start_time end_time
                  escape_slash log)
           = (log ++ [connect_of self;
                      Execute (SelectRaw (sent_ids escape_slash tag_ids) t0 t1);
                      Close])%list
        /\ snd (get_tags_readings_interpolated srv self tag_ids start_time
                  end_time step_size aggregate escape_slash
                  remove_microseconds log)
           = (log ++ [connect_of self;
                      Execute (SelectInterpolated
                                 (sent_ids escape_slash tag_ids) t0 t1
                                 aggregate step_size);
                      Close])%list).
Proof.
  intros Hgt. split; [apply get_tags_readings_no_range_error |].
  split; [apply get_tags_readings_interpolated_no_range_error |].
  intros t0 t1 Hin H0 H1.
  split; [now apply (localize_fields (timezone self)) |].
  split; [now apply (localize_fields (timezone self)) |].
  split.
  - now rewrite (get_tags_readings_script srv self tag_ids start_time
                   end_time t0 t1).
  - now rewrite (get_tags_readings_interpolated_script srv self tag_ids
                   start_time end_time t0 t1).
Qed.

Lemma batched_reads_skip_range_check_witness :
  (fst (get_tags_readings (serving sample_rows) plant sample_ids late early
          true []) <> Raise (ValueError range_message)
   /\ exists rest,
        snd (get_tags_readings (serving sample_rows) plant sample_ids late
               early true [])
        = ([] ++ connect_of plant :: rest)%list)
  /\ (fst (get_tags_readings_interpolated (serving sample_rows) plant
             sample_ids late early default_step_size default_aggregate true true [])
      <> Raise (ValueError range_message)
      /\ exists rest,
           snd (get_tags_readings_interpolated (serving sample_rows) plant
                  sample_ids late early default_step_size default_aggregate true true [])
           = ([] ++ connect_of plant :: rest)%list)
  /\ (forall t0 t1,
        lets_in (serving sample_rows) plant ->
        localize (timezone plant) late = Ok t0 ->
        localize (timezone plant) early = Ok t1 ->
        fields t0 = fields late
        /\ fields t1 = fields early
        /\ snd (get_tags_readings (serving sample_rows) plant sample_ids late
                  early true [])
           = ([] ++ [connect_of plant;
                      Execute (SelectRaw (sent_ids true sample_ids) t0 t1);
                      Close])%list
        /\ snd (get_tags_readings_interpolated (serving sample_rows) plant
                  sample_ids late early default_step_size default_aggregate true true [])
           = ([] ++ [connect_of plant;
                      Execute (SelectInterpolated (sent_ids true sample_ids)
                                 t0 t1 default_aggregate default_step_size);
                      Close])%list).
Proof.
  apply (batched_reads_skip_range_check (serving sample_rows) plant
           sample_ids late early default_step_size default_aggregate true true []).
  reflexivity.
Defined.

Example inverted_sample_batched :
  get_tags_readings (serving []) plant sample_ids late early true []
  = (Ok ∅, [connect_of plant;
            Execute (SelectRaw "PLT.src//a;PLT.src.b" (in_utc late)
                       (in_utc early));
            Close]).
Proof. vm_compute. reflexivity. Qed.

Example unreachable_sample :
  get_tags_readings unreachable plant sample_ids late early true []
  = (Raise (DatabaseError "Connection to the database failed"),
     [connect_of plant]).
Proof. reflexivity. Qed.

(** ** The current reading of one tag *)

Lemma last_default (rows : list Row) (r d : Row) :
  last rows = Some r -> List.last rows d = r.
Proof.
  intros H. apply last_Some in H as [front ->]. apply List.last_last.
Qed.

Lemma get_current_tag_reading_script (srv : Server) (self : Historian)
    (tag_id : string) (escape_slashes : bool) (log : list event) :
  lets_in srv self ->
  get_current_tag_reading srv self tag_id escape_slashes log
  = (results ← run srv (SelectCurrent (sent_id escape_slashes tag_id));
     match results with
     | [] => Ok None
     | r0 :: _ => x ← reading self (List.last results r0); Ok (Some x)
     end,
     log ++ [connect_of self;
             Execute (SelectCurrent (sent_id escape_slashes tag_id));
             Close])%list.
Proof.
  intros Hin. unfold get_current_tag_reading, sent_id, with_cursor.
  unfold lets_in in Hin. rewrite Hin.
  unfold execute, lift, mbind, io_bind, mret, io_ret.
  destruct (run srv _) as [[| r0 rest] | e]; cbn;
    now rewrite <- !app_assoc.
Qed.

(** C5. When the cursor delivers [rows], [get_current_tag_reading]
    returns [None] without raising if there is no row, and otherwise the
    reading built from the last row: its value and quality, with its
    timestamp localized. *)
Theorem get_current_tag_reading_last_row (srv : Server) (self : Historian)
    (tag_id : string) (escape_slashes : bool) (log : list event)
    (rows : list Row) :
  lets_in srv self ->
  run srv (SelectCurrent (sent_id escape_slashes tag_id)) = Ok rows ->
  (rows = [] ->
   fst (get_current_tag_reading srv self tag_id escape_slashes log) = Ok None)
  /\ (forall r, last rows = Some r ->
        fst (get_current_tag_reading srv self tag_id escape_slashes log)
        = (x ← reading self r; mret (Some x)))
  /\ (forall r, last rows = Some r -> is_naive (Timestamp r) = true ->
        fst (get_current_tag_reading srv self tag_id escape_slashes log)
        = Ok (Some (reading_of self r))).
Proof.
  intros Hin Hrun.
  rewrite (get_current_tag_reading_script srv self tag_id escape_slashes log Hin).
  cbn [fst]. rewrite Hrun.
  assert (Hlast : forall r, last rows = Some r ->
            (match rows with
             | [] => Ok None
             | r0 :: _ => x ← reading self (List.last rows r0); Ok (Some x)
             end) = (x ← reading self r; mret (Some x))).
  { intros r Hr. destruct rows as [| r0 rest]; [discriminate |].
    now rewrite (last_default _ r r0 Hr). }
  split; [now intros -> |]. split.
  - intros r Hr. cbn. now apply Hlast.
  - intros r Hr Hnaive. cbn. rewrite (Hlast r Hr).
    now rewrite (reading_naive self r Hnaive).
Qed.

Lemma get_current_tag_reading_last_row_witness :
  (select_columns sample_rows = [] ->
   fst (get_current_tag_reading (serving sample_rows) plant "PLT.src/a" true [])
   = Ok None)
  /\ (forall r, last (select_columns sample_rows) = Some r ->
        fst (get_current_tag_reading (serving sample_rows) plant "PLT.src/a"
               true [])
        = (x ← reading plant r; mret (Some x)))
  /\ (forall r, last (select_columns sample_rows) = Some r ->
        is_naive (Timestamp r) = true ->
        fst (get_current_tag_reading (serving sample_rows) plant "PLT.src/a"
               true [])
        = Ok (Some (reading_of plant r))).
Proof.
  apply (get_current_tag_reading_last_row (serving sample_rows) plant
           "PLT.src/a" true [] (select_columns sample_rows)).
  - reflexivity.
  - reflexivity.
Defined.

Example no_current_value :
  get_current_tag_reading (serving []) plant "test1" true []
  = (Ok None, [connect_of plant; Execute (SelectCurrent "test1"); Close]).
Proof. reflexivity. Qed.

Example current_value_is_last :
  fst (get_current_tag_reading (serving sample_rows) plant "PLT.src/a" true [])
  = Ok (Some {| value := 4%float;
                timestamp := in_utc (at_ 2018 9 30 12 2 0 750000);
                quality := 0 |}).
Proof. reflexivity. Qed.

(** ** Localized timestamps *)

Section Localized.

Variable srv : Server.
Variable self : Historian.

Lemma reading_aware (r : Row) (x : TagReading) :
  reading self r = Ok x -> aware_in self x.
Proof.
  unfold reading.
  destruct (localize (timezone self) (Timestamp r)) as [ts |] eqn:Hts;
    [| discriminate].
  intros [= <-]. split; [now exists (Timestamp r) |].
  now apply localize_aware in Hts.
Qed.

Lemma latest_by_id_total (rows : list Row) :
  naive_rows rows ->
  forall acc, exists m, latest_by_id self acc rows = Ok m.
Proof.
  induction 1 as [| r rest Hr _ IH]; intros acc; [now exists acc |].
  cbn [latest_by_id]. rewrite (reading_naive self r Hr). cbn. apply IH.
Qed.

Lemma latest_by_id_aware (rows : list Row) :
  forall acc m,
    map_Forall (fun _ x => aware_in self x) acc ->
    latest_by_id self acc rows = Ok m ->
    map_Forall (fun _ x => aware_in self x) m.
Proof.
  induction rows as [| r rest IH]; intros acc m Hacc H.
  - cbn in H. now injection H as <-.
  - cbn [latest_by_id] in H.
    destruct (reading self r) as [x | e] eqn:Hx; [| discriminate].
    cbn in H. eapply IH; [| exact H].
    apply map_Forall_insert_2; [now apply (reading_aware r) | exact Hacc].
Qed.

Lemma mapM_reading_cons (r : Row) (rest : list Row) :
  mapM (reading self) (r :: rest)
  = (y ← reading self r; k ← mapM (reading self) rest; mret (y :: k)).
Proof. reflexivity. Qed.

Lemma mapM_reading_naive (rows : list Row) :
  naive_rows rows -> mapM (reading self) rows = Ok (reading_of self <$> rows).
Proof.
  induction 1 as [| r rest Hr _ IH]; [reflexivity |].
  rewrite mapM_reading_cons, (reading_naive self r Hr), IH. reflexivity.
Qed.

Lemma mapM_reading_aware (rows : list Row) :
  forall l, mapM (reading self) rows = Ok l -> Forall (aware_in self) l.
Proof.
  induction rows as [| r rest IH]; intros l H.
  - cbn in H. injection H as <-. constructor.
  - rewrite mapM_reading_cons in H.
    destruct (reading self r) as [x | e] eqn:Hx; [| discriminate].
    destruct (mapM (reading self) rest) as [xs | e] eqn:Hxs; [| discriminate].
    cbn in H. injection H as <-.
    constructor; [now apply (reading_aware r) | now apply IH].
Qed.

Lemma group_by_id_aware (mk : Row -> outcome TagReading) (rows : list Row) :
  (forall r x, mk r = Ok x -> aware_in self x) ->
  forall acc m,
    map_Forall (fun _ l => Forall (aware_in self) l) acc ->
    group_by_id mk acc rows = Ok m ->
    map_Forall (fun _ l => Forall (aware_in self) l) m.
Proof.
  intros Hmk. induction rows as [| row rest IH]; intros acc m Hacc H.
  - cbn in H. now injection H as <-.
  - cbn [group_by_id] in H.
    destruct (mk row) as [x | e] eqn:Hx.
    2:{ destruct (acc !! Id row); discriminate. }
    apply Hmk in Hx.
    destruct (acc !! Id row) as [l |] eqn:Hl; cbn in H;
      (eapply IH; [| exact H]); (apply map_Forall_insert_2; [| exact Hacc]).
    + apply Forall_app. split; [exact (Hacc _ _ Hl) | now constructor].
    + now constructor.
Qed.

Lemma get_current_tags_readings_script (tag_ids : list string)
    (escape_slash : bool) (log : list event) :
  lets_in srv self ->
  get_current_tags_readings srv self tag_ids escape_slash log
  = (rows ← run srv (SelectCurrent (sent_ids escape_slash tag_ids));
     latest_by_id self ∅ rows,
     log ++ [connect_of self;
             Execute (SelectCurrent (sent_ids escape_slash tag_ids));
             Close])%list.
Proof.
  intros Hin. unfold get_current_tags_readings, sent_ids, with_cursor.
  unfold lets_in in Hin. rewrite Hin.
  unfold execute, lift, mbind, io_bind.
  destruct (run srv _) as [rows | e]; cbn; now rewrite <- !app_assoc.
Qed.

Lemma get_tag_readings_script (tag_id : string)
    (start_time end_time t0 t1 : datetime) (escape_slashes : bool)
    (log : list event) :
  Datetime.le start_time end_time = Ok true ->
  lets_in srv self ->
  localize (timezone self) start_time = Ok t0 ->
  localize (timezone self) end_time = Ok t1 ->
  get_tag_readings srv self tag_id start_time end_time escape_slashes log
  = (rows ← run srv (SelectRaw (sent_id escape_slashes tag_id) t0 t1);
     mapM (reading self) rows,
     log ++ [connect_of self;
             Execute (SelectRaw (sent_id escape_slashes tag_id) t0 t1);
             Close])%list.
Proof.
  intros Hle Hin H0 H1. unfold get_tag_readings, sent_id.
  unfold lift at 1. unfold mbind at 1. unfold io_bind at 1. rewrite Hle.
  cbn [negb]. unfold with_cursor. unfold lets_in in Hin. rewrite Hin.
  unfold execute, lift, mbind, io_bind. rewrite H0, H1.
  destruct (run srv _) as [rows | e]; cbn; now rewrite <- !app_assoc.
Qed.

(** Whatever the rows are, a reading that is returned is aware. *)
Lemma get_current_tag_reading_aware (tag_id : string)
    (escape_slashes : bool) (log : list event) (x : TagReading) :
  fst (get_current_tag_reading srv self tag_id escape_slashes log)
  = Ok (Some x) ->
  aware_in self x.
Proof.
  unfold get_current_tag_reading, with_cursor.
  destruct (login_error srv _ _ _ _); [discriminate |].
  unfold execute, lift, mbind, io_bind, mret, io_ret.
  destruct (run srv _) as [[| r0 rest] | e]; cbn; try discriminate.
  destruct (reading self _) as [y | e] eqn:Hy; cbn; [| discriminate].
  intros [= <-]. now apply reading_aware in Hy.
Qed.

Lemma get_current_tags_readings_aware (tag_ids : list string)
    (escape_slash : bool) (log : list event) (m : gmap string TagReading) :
  fst (get_current_tags_readings srv self tag_ids escape_slash log) = Ok m ->
  map_Forall (fun _ x => aware_in self x) m.
Proof.
  unfold get_current_tags_readings, with_cursor.
  destruct (login_error srv _ _ _ _); [discriminate |].
  unfold execute, lift, mbind, io_bind.
  destruct (run srv _) as [rows | e]; cbn; [| discriminate].
  apply latest_by_id_aware. apply map_Forall_empty.
Qed.

Lemma get_tag_readings_aware (tag_id : string)
    (start_time end_time : datetime) (escape_slashes : bool)
    (log : list event) (l : list TagReading) :
  fst (get_tag_readings srv self tag_id start_time end_time escape_slashes log)
  = Ok l ->
  Forall (aware_in self) l.
Proof.
  unfold get_tag_readings.
  unfold lift at 1. unfold mbind at 1. unfold io_bind at 1.
  destruct (Datetime.le start_time end_time) as [[|] | e]; cbn [negb];
    try discriminate.
  unfold with_cursor.
  destruct (login_error srv _ _ _ _); [discriminate |].
  unfold execute, lift, mbind, io_bind.
  destruct (localize _ start_time); [| discriminate].
  destruct (localize _ end_time); [| discriminate].
  destruct (run srv _) as [rows | e]; cbn; [| discriminate].
  apply mapM_reading_aware.
Qed.

Lemma get_tags_readings_aware (tag_ids : list string)
    (start_time end_time : datetime) (escape_slash : bool)
    (log : list event) (m : gmap string (list TagReading)) :
  fst (get_tags_readings srv self tag_ids start_time end_time escape_slash log)
  = Ok m ->
  map_Forall (fun _ l => Forall (aware_in self) l) m.
Proof.
  intros H.
  apply get_tags_readings_Ok in H as (t0 & t1 & rows & _ & _ & _ & _ & H).
  eapply group_by_id_aware; [| apply map_Forall_empty | exact H].
  apply reading_aware.
Qed.

Lemma get_tags_readings_interpolated_aware (tag_ids : list string)
    (start_time end_time : datetime) (step_size : Z) (aggregate : string)
    (escape_slash remove_microseconds : bool) (log : list event)
    (m : gmap string (list TagReading)) :
  fst (get_tags_readings_interpolated srv self tag_ids start_time end_time
         step_size aggregate escape_slash remove_microseconds log) = Ok m ->
  map_Forall (fun _ l => Forall (aware_in self) l) m.
Proof.
  intros H.
  apply get_tags_readings_interpolated_Ok in H
    as (t0 & t1 & rows & _ & _ & _ & _ & H).
  eapply group_by_id_aware; [| apply map_Forall_empty | exact H].
  intros r x Hx. rewrite reading_whole_second_truncated in Hx.
  now apply reading_aware in Hx.
Qed.

End Localized.

Lemma localize_naive (tz : Zone) (dt : datetime) :
  is_naive dt = true -> exists t, localize tz dt = Ok t.
Proof.
  unfold is_naive, localize. destruct (dt_tzinfo dt); [discriminate |].
  intros _. now eexists.
Qed.

Lemma get_tags_readings_returns (srv : Server) (self : Historian)
    (tag_ids : list string) (start_time end_time t0 t1 : datetime)
    (escape_slash : bool) (log : list event) (rows : list Row) :
  lets_in srv self ->
  localize (timezone self) start_time = Ok t0 ->
  localize (timezone self) end_time = Ok t1 ->
  run srv (SelectRaw (sent_ids escape_slash tag_ids) t0 t1) = Ok rows ->
  naive_rows rows ->
  exists m,
    fst (get_tags_readings srv self tag_ids start_time end_time escape_slash log)
    = Ok m.
Proof.
  intros Hin H0 H1 Hrun Hnaive.
  destruct (group_by_id_total (reading self) rows)
    with (acc := (∅ : gmap string (list TagReading))) as [m Hm].
  { eapply Forall_impl; [exact Hnaive |]. intros r Hr. cbn in Hr.
    eexists. now apply reading_naive. }
  exists m.
  rewrite (get_tags_readings_script srv self tag_ids start_time end_time t0 t1)
    by assumption.
  cbn [fst]. rewrite Hrun. exact Hm.
Qed.

Lemma get_tags_readings_interpolated_returns (srv : Server) (self : Historian)
    (tag_ids : list string) (start_time end_time t0 t1 : datetime)
    (step_size : Z) (aggregate : string)
    (escape_slash remove_microseconds : bool) (log : list event)
    (rows : list Row) :
  lets_in srv self ->
  localize (timezone self) start_time = Ok t0 ->
  localize (timezone self) end_time = Ok t1 ->
  run srv (SelectInterpolated (sent_ids escape_slash tag_ids) t0 t1
             aggregate step_size) = Ok rows ->
  naive_rows rows ->
  exists m,
    fst (get_tags_readings_interpolated srv self tag_ids start_time end_time
           step_size aggregate escape_slash remove_microseconds log)
    = Ok m.
Proof.
  intros Hin H0 H1 Hrun Hnaive.
  destruct (group_by_id_total (reading_whole_second self) rows)
    with (acc := (∅ : gmap string (list TagReading))) as [m Hm].
  { eapply Forall_impl; [exact Hnaive |]. intros r Hr. cbn in Hr.
    eexists. rewrite reading_whole_second_truncated.
    apply reading_naive. now rewrite naive_truncated. }
  exists m.
  rewrite (get_tags_readings_interpolated_script srv self tag_ids
             start_time end_time t0 t1) by assumption.
  cbn [fst]. rewrite Hrun. exact Hm.
Qed.

(** C6. Against a server that lets the client in and whose rows carry
    naive timestamps, each of the five reads that return readings does
    return, and every timestamp it returns carries the [tzinfo] of the
    client's zone: none is naive. *)
Theorem returned_timestamps_localized (srv : Server) (self : Historian)
    (tag_id : string) (tag_ids : list string)
    (start_time end_time : datetime) (step_size : Z) (aggregate : string)
    (escape_slashes remove_microseconds : bool) (log : list event) :
  lets_in srv self ->
  answers_naive srv ->
  is_naive start_time = true ->
  is_naive end_time = true ->
  Datetime.le start_time end_time = Ok true ->
  (exists res,
     fst (get_current_tag_reading srv self tag_id escape_slashes log) = Ok res
     /\ forall x, res = Some x -> aware_in self x)
  /\ (exists res,
        fst (get_current_tags_readings srv self tag_ids escape_slashes log)
        = Ok res
        /\ map_Forall (fun _ x => aware_in self x) res)
  /\ (exists res,
        fst (get_tag_readings srv self tag_id start_time end_time
               escape_slashes log) = Ok res
        /\ Forall (aware_in self) res)
  /\ (exists res,
        fst (get_tags_readings srv self tag_ids start_time end_time
               escape_slashes log) = Ok res
        /\ map_Forall (fun _ l => Forall (aware_in self) l) res)
  /\ (exists res,
        fst (get_tags_readings_interpolated srv self tag_ids start_time
               end_time step_size aggregate escape_slashes
               remove_microseconds log) = Ok res
        /\ map_Forall (fun _ l => Forall (aware_in self) l) res).
Proof.
  intros Hin Hsrv Hs He Hle.
  destruct (localize_naive (timezone self) start_time Hs) as [t0 H0].
  destruct (localize_naive (timezone self) end_time He) as [t1 H1].
  repeat apply conj.
  - destruct (Hsrv (SelectCurrent (sent_id escape_slashes tag_id)))
      as (rows & Hrun & Hnaive).
    assert (exists res,
              fst (get_current_tag_reading srv self tag_id escape_slashes log)
              = Ok res) as [res Hres].
    { rewrite (get_current_tag_reading_script srv self tag_id
                 escape_slashes log Hin).
      cbn [fst]. rewrite Hrun. destruct rows as [| r0 rest]; [now eexists |].
      destruct (proj2 (last_is_Some (r0 :: rest))) as [r Hr]; [discriminate |].
      unfold mbind, outcome_bind. cbv beta iota.
      rewrite (last_default _ r r0 Hr).
      rewrite reading_naive; [now eexists |].
      apply last_Some_elem_of in Hr.
      exact (proj1 (Forall_forall _ _) Hnaive r Hr). }
    exists res. split; [assumption |].
    intros x ->. now apply get_current_tag_reading_aware in Hres.
  - destruct (Hsrv (SelectCurrent (sent_ids escape_slashes tag_ids)))
      as (rows & Hrun & Hnaive).
    destruct (latest_by_id_total self rows Hnaive ∅) as [m Hm].
    assert (Hres : fst (get_current_tags_readings srv self tag_ids
                          escape_slashes log) = Ok m).
    { rewrite (get_current_tags_readings_script srv self tag_ids
                 escape_slashes log Hin).
      cbn [fst]. now rewrite Hrun. }
    exists m. split; [assumption |].
    now apply get_current_tags_readings_aware in Hres.
  - destruct (Hsrv (SelectRaw (sent_id escape_slashes tag_id) t0 t1))
      as (rows & Hrun & Hnaive).
    assert (Hres : fst (get_tag_readings srv self tag_id start_time end_time
                          escape_slashes log)
                   = Ok (reading_of self <$> rows)).
    { rewrite (get_tag_readings_script srv self tag_id start_time end_time
                 t0 t1 escape_slashes log Hle Hin H0 H1).
      cbn [fst]. rewrite Hrun. now apply mapM_reading_naive. }
    eexists. split; [exact Hres |].
    now apply get_tag_readings_aware in Hres.
  - destruct (Hsrv (SelectRaw (sent_ids escape_slashes tag_ids) t0 t1))
      as (rows & Hrun & Hnaive).
    destruct (get_tags_readings_returns srv self tag_ids start_time end_time
                t0 t1 escape_slashes log rows Hin H0 H1 Hrun Hnaive)
      as (m & Hres).
    exists m. split; [assumption |].
    now apply get_tags_readings_aware in Hres.
  - destruct (Hsrv (SelectInterpolated (sent_ids escape_slashes tag_ids) t0 t1
                      aggregate step_size)) as (rows & Hrun & Hnaive).
    destruct (get_tags_readings_interpolated_returns srv self tag_ids
                start_time end_time t0 t1 step_size aggregate escape_slashes
                remove_microseconds log rows Hin H0 H1 Hrun Hnaive)
      as (m & Hres).
    exists m. split; [assumption |].
    now apply get_tags_readings_interpolated_aware in Hres.
Qed.

Lemma serving_sample_naive : answers_naive (serving sample_rows).
Proof.
  intros q. exists (select_columns sample_rows).
  split; [now destruct q | repeat constructor].
Qed.

Lemma returned_timestamps_localized_witness :
  (exists res,
     fst (get_current_tag_reading (serving sample_rows) plant "PLT.src/a" true
            []) = Ok res
     /\ forall x, res = Some x -> aware_in plant x)
  /\ (exists res,
        fst (get_current_tags_readings (serving sample_rows) plant sample_ids
               true []) = Ok res
        /\ map_Forall (fun _ x => aware_in plant x) res)
  /\ (exists res,
        fst (get_tag_readings (serving sample_rows) plant "PLT.src/a" early
               late true []) = Ok res
        /\ Forall (aware_in plant) res)
  /\ (exists res,
        fst (get_tags_readings (serving sample_rows) plant sample_ids early
               late true []) = Ok res
        /\ map_Forall (fun _ l => Forall (aware_in plant) l) res)
  /\ (exists res,
        fst (get_tags_readings_interpolated (serving sample_rows) plant
               sample_ids early late default_step_size default_aggregate true true []) = Ok res
        /\ map_Forall (fun _ l => Forall (aware_in plant) l) res).
Proof.
  apply (returned_timestamps_localized (serving sample_rows) plant
           "PLT.src/a" sample_ids early late default_step_size default_aggregate true true []).
  - reflexivity.
  - exact serving_sample_naive.
  - reflexivity.
  - reflexivity.
  - reflexivity.
Defined.

Example sample_timestamps :
  (l ← fst (get_tag_readings (serving sample_rows) plant "PLT.src/a" early
              late true []);
   mret (fmap (M := list) (fun x => dt_tzinfo (timestamp x)) l))
  = Ok [Some {| tzname := "UTC"; utcoffset := 0 |};
        Some {| tzname := "UTC"; utcoffset := 0 |};
        Some {| tzname := "UTC"; utcoffset := 0 |}].
Proof. reflexivity. Qed.

Example aware_row_refused :
  fst (get_tag_readings
         (serving [ {| tagname := "PLT.src.b";
                       h_timestamp := in_utc (at_ 2018 9 30 12 0 30 0);
                       h_value := 2%float; h_quality := 192;
                       shistorianquality := "Good" |} ])
         plant "PLT.src.b" early late true [])
  = Raise (ValueError "Not naive datetime (tzinfo is already set)").
Proof. reflexivity. Qed.

(** * Further properties *)

(** ** Escaping *)

Lemma escape_cases (c : ascii) (s : string) :
  (c = "/"%char /\ escape (String c s) = String "/" (String "/" (escape s)))
  \/ (c <> "/"%char /\ escape (String c s) = String c (escape s)).
Proof.
  destruct (ascii_dec c "/") as [-> | Hc].
  - left. split; [reflexivity | apply escape_cons_slash].
  - right. split; [assumption | now apply escape_cons_other].
Qed.

Lemma escape_length (s : string) :
  String.length (escape s) = (String.length s + count_slash s)%nat.
Proof.
  induction s as [| c s IH]; [reflexivity |].
  destruct (escape_cases c s) as [[-> E] | [Hc E]]; rewrite E;
    cbn [String.length count_slash]; rewrite IH.
  - destruct (ascii_dec "/" "/"); [lia | contradiction].
  - destruct (ascii_dec c "/"); [contradiction | lia].
Qed.

Lemma contains_slash_cons (c : ascii) (s : string) :
  Str.contains "/" (String c s)
  = (if ascii_dec c "/" then true else Str.contains "/" s).
Proof.
  cbn [Str.contains Str.startswith].
  destruct (ascii_dec "/" c) as [E | N], (ascii_dec c "/") as [E' | N'];
    try congruence; reflexivity.
Qed.

Lemma contains_slash_count (s : string) :
  Str.contains "/" s = false <-> count_slash s = 0%nat.
Proof.
  induction s as [| c s IH]; [split; reflexivity |].
  rewrite contains_slash_cons. cbn [count_slash].
  destruct (ascii_dec c "/") as [E | N].
  - split; [discriminate | cbn; discriminate].
  - rewrite IH. reflexivity.
Qed.

(** X1. Collapsing what escaping produced gives the identifier back for
    every identifier, also one that already holds ["//"]; so two
    different identifiers are never sent as the same string. *)
Theorem escape_injective :
  (forall tag_id, collapse (escape tag_id) = tag_id)
  /\ (forall a b, escape a = escape b -> a = b).
Proof.
  split; [apply collapse_escape |].
  intros a b H. rewrite <- (collapse_escape a), <- (collapse_escape b).
  now rewrite H.
Qed.

(** X2. Escaping adds exactly one character for each ['/'] of the
    identifier, and leaves the identifier as it is exactly when it holds
    no ['/']. *)
Theorem escape_grows_by_slashes (tag_id : string) :
  String.length (escape tag_id)
  = (String.length tag_id + count_slash tag_id)%nat
  /\ (escape tag_id = tag_id <-> Str.contains "/" tag_id = false).
Proof.
  split; [apply escape_length |].
  rewrite contains_slash_count. split.
  - intros H. pose proof (escape_length tag_id) as L. rewrite H in L. lia.
  - induction tag_id as [| c s IH]; [reflexivity |].
    cbn [count_slash]. destruct (ascii_dec c "/") as [E | N];
      [cbn; discriminate |].
    intros H. rewrite escape_cons_other by assumption.
    now rewrite IH.
Qed.

Example escape_three_slashes :
  String.length (escape "a/b//c") = 9%nat /\ count_slash "a/b//c" = 3%nat.
Proof. split; reflexivity. Qed.

(** ** The constructor: what it resolves and in which order *)

Section Resolution.

Variable os : Process.
Variable a : init_args.

(** The constructor reads the four settings in order and then the zone. *)
Lemma construct_steps :
  construct os a
  = (sv ← lookup_setting os a Server_;
     us ← lookup_setting os a User_;
     pw ← lookup_setting os a Password_;
     ab ← lookup_setting os a Abbreviation_;
     tz ← pytz_timezone os (zone_name os a);
     mret {| server := sv; user := us; password := pw;
             database := arg_database a; abbreviation := ab;
             timezone := tz |}).
Proof.
  unfold construct, Historian_init, lookup_setting, resolved, zone_name,
    environ_getitem.
  cbn [explicit variable_of].
  destruct (arg_server a), (arg_user a), (arg_password a),
    (arg_site_abbreviation a), (arg_timezone a);
    repeat match goal with
           | |- context [environ os !! ?k] => destruct (environ os !! k)
           end; reflexivity.
Qed.

Lemma lookup_setting_Ok (f : setting) (s : string) :
  lookup_setting os a f = Ok s <-> resolved os a f = Some s.
Proof.
  unfold lookup_setting. destruct (resolved os a f); split; congruence.
Qed.

Lemma resolved_not_missing (f : setting) :
  ~ missing os a f <-> exists s, resolved os a f = Some s.
Proof.
  unfold missing, resolved. destruct (explicit a f) as [s |].
  - split; [intros _; now exists s | intros _ [H _]; discriminate].
  - destruct (environ os !! variable_of f) as [v |].
    + split; [intros _; now exists v | intros _ [_ H]; discriminate].
    + split; [intros H; exfalso; now apply H | intros [s H]; discriminate].
Qed.

End Resolution.

(** X3. Construction succeeds with a client [h] exactly when each of the
    four settings resolves (argument first, variable otherwise) to the
    attribute of [h], the database is the argument, and pytz knows the
    zone name (argument, else DATAPARC_TIMEZONE, else UTC) as the zone of
    [h]. *)
Theorem construct_Ok_iff (os : Process) (a : init_args) (h : Historian) :
  construct os a = Ok h
  <-> resolved os a Server_ = Some (server h)
      /\ resolved os a User_ = Some (user h)
      /\ resolved os a Password_ = Some (password h)
      /\ resolved os a Abbreviation_ = Some (abbreviation h)
      /\ database h = arg_database a
      /\ pytz_zones os (zone_name os a) = Some (timezone h).
Proof.
  rewrite construct_steps. unfold lookup_setting, pytz_timezone. split.
  - destruct (resolved os a Server_); [| discriminate].
    destruct (resolved os a User_); [| discriminate].
    destruct (resolved os a Password_); [| discriminate].
    destruct (resolved os a Abbreviation_); [| discriminate].
    destruct (pytz_zones os (zone_name os a)); [| discriminate].
    cbn. intros [= <-]. repeat split; reflexivity.
  - intros (-> & -> & -> & -> & Hd & ->). cbn. destruct h; cbn in *.
    now subst.
Qed.

(** X4. With all four settings and the zone given as arguments, the
    environment is not consulted: two processes that know the same zones
    construct the same client. *)
Theorem construct_explicit_ignores_environ (os1 os2 : Process)
    (a : init_args) (name : string) :
  (forall f, explicit a f <> None) ->
  arg_timezone a = Some name ->
  pytz_zones os1 name = pytz_zones os2 name ->
  construct os1 a = construct os2 a.
Proof.
  intros Hall Htz Hz. rewrite !construct_steps.
  unfold lookup_setting, resolved, zone_name, pytz_timezone.
  rewrite Htz, Hz.
  pose proof (Hall Server_) as H0. pose proof (Hall User_) as H1.
  pose proof (Hall Password_) as H2. pose proof (Hall Abbreviation_) as H3.
  destruct (explicit a Server_); [| contradiction].
  destruct (explicit a User_); [| contradiction].
  destruct (explicit a Password_); [| contradiction].
  destruct (explicit a Abbreviation_); [| contradiction].
  reflexivity.
Qed.

Lemma construct_explicit_ignores_environ_witness :
  construct full_env all_args = construct bare all_args.
Proof.
  apply (construct_explicit_ignores_environ full_env bare all_args "UTC").
  - intros f. destruct f; discriminate.
  - reflexivity.
  - reflexivity.
Defined.

(** X5. When no setting is missing and pytz does not know the zone name,
    construction fails with the [UnknownTimeZoneError] of that name: the
    argument if given, else DATAPARC_TIMEZONE, else UTC. *)
Theorem construct_unknown_zone (os : Process) (a : init_args) :
  (forall f, ~ missing os a f) ->
  pytz_zones os (zone_name os a) = None ->
  construct os a = Raise (UnknownTimeZoneError (zone_name os a)).
Proof.
  intros Hall Hz. rewrite construct_steps.
  unfold lookup_setting, pytz_timezone. rewrite Hz.
  destruct (proj1 (resolved_not_missing os a Server_) (Hall _)) as [s0 ->].
  destruct (proj1 (resolved_not_missing os a User_) (Hall _)) as [s1 ->].
  destruct (proj1 (resolved_not_missing os a Password_) (Hall _)) as [s2 ->].
  destruct (proj1 (resolved_not_missing os a Abbreviation_) (Hall _))
    as [s3 ->].
  reflexivity.
Qed.

Lemma construct_unknown_zone_witness :
  construct full_env no_args
  = Raise (UnknownTimeZoneError (zone_name full_env no_args)).
Proof.
  apply (construct_unknown_zone full_env no_args).
  - intros f [_ H]. destruct f; vm_compute in H; discriminate H.
  - vm_compute. reflexivity.
Defined.

Example unknown_zone_named :
  construct full_env no_args = Raise (UnknownTimeZoneError "Mars/Olympus").
Proof. vm_compute. reflexivity. Qed.

(** X6. A missing setting is reported before the zone is looked at: with a
    setting missing, the result is the same whatever zones pytz knows and
    whatever zone argument is passed. *)
Theorem construct_missing_before_zone (os1 os2 : Process)
    (a1 a2 : init_args) (f : setting) :
  environ os1 = environ os2 ->
  (forall g, explicit a1 g = explicit a2 g) ->
  missing os1 a1 f ->
  construct os1 a1 = construct os2 a2
  /\ exists g, construct os1 a1 = Raise (KeyError (variable_of g)).
Proof.
  intros Henv Hexp Hf.
  assert (Hres : forall g, lookup_setting os1 a1 g = lookup_setting os2 a2 g).
  { intros g. unfold lookup_setting, resolved. now rewrite Henv, Hexp. }
  rewrite !construct_steps, <- !Hres.
  assert (Hraise : lookup_setting os1 a1 f = Raise (KeyError (variable_of f))).
  { unfold lookup_setting, resolved. destruct Hf as [-> ->]. reflexivity. }
  destruct (lookup_setting os1 a1 Server_) as [s0 |] eqn:E0.
  2:{ split; [reflexivity |]. exists Server_. cbn.
      unfold lookup_setting in E0. destruct (resolved os1 a1 Server_);
        [discriminate | now injection E0 as <-]. }
  destruct (lookup_setting os1 a1 User_) as [s1 |] eqn:E1.
  2:{ split; [reflexivity |]. exists User_. cbn.
      unfold lookup_setting in E1. destruct (resolved os1 a1 User_);
        [discriminate | now injection E1 as <-]. }
  destruct (lookup_setting os1 a1 Password_) as [s2 |] eqn:E2.
  2:{ split; [reflexivity |]. exists Password_. cbn.
      unfold lookup_setting in E2. destruct (resolved os1 a1 Password_);
        [discriminate | now injection E2 as <-]. }
  destruct (lookup_setting os1 a1 Abbreviation_) as [s3 |] eqn:E3.
  2:{ split; [reflexivity |]. exists Abbreviation_. cbn.
      unfold lookup_setting in E3. destruct (resolved os1 a1 Abbreviation_);
        [discriminate | now injection E3 as <-]. }
  destruct f; congruence.
Qed.

Lemma construct_missing_before_zone_witness :
  construct only_server no_args = construct no_zones zone_only_args
  /\ exists g, construct only_server no_args = Raise (KeyError (variable_of g)).
Proof.
  apply (construct_missing_before_zone only_server no_zones no_args
           zone_only_args User_).
  - reflexivity.
  - intros g. now destruct g.
  - split; [reflexivity | vm_compute; reflexivity].
Defined.

(** ** The range check at its edges *)

Lemma lex_compare_refl (xs : list Z) : lex_compare xs xs = Eq.
Proof.
  induction xs as [| x xs IH]; [reflexivity |].
  cbn. now rewrite Z.compare_refl.
Qed.

Lemma cmp_refl (t : datetime) : Datetime.cmp t t = Ok Eq.
Proof.
  unfold Datetime.cmp.
  destruct (dt_tzinfo t) as [tz |]; cbn [fmap option_fmap option_map].
  - now rewrite Z.eqb_refl, lex_compare_refl.
  - now rewrite lex_compare_refl.
Qed.

Lemma cmp_naive (a b : datetime) :
  is_naive a = true -> is_naive b = true ->
  Datetime.cmp a b = Ok (lex_compare (fields a) (fields b)).
Proof.
  unfold is_naive, Datetime.cmp.
  destruct (dt_tzinfo a), (dt_tzinfo b); try discriminate. reflexivity.
Qed.

Lemma cmp_mixed (a b : datetime) :
  is_naive a <> is_naive b ->
  Datetime.cmp a b = Raise (TypeError mixed_message).
Proof.
  unfold is_naive, Datetime.cmp.
  destruct (dt_tzinfo a), (dt_tzinfo b); cbn; try reflexivity; congruence.
Qed.

Lemma mapM_reading_Raise (self : Historian) (rows : list Row) (e : exn) :
  mapM (reading self) rows = Raise e -> e = ValueError not_naive_message.
Proof.
  induction rows as [| r rest IH]; [discriminate |].
  rewrite mapM_reading_cons.
  destruct (reading self r) as [x | e'] eqn:Hx.
  - destruct (mapM (reading self) rest) as [xs | e'']; [discriminate |].
    cbn. intros [= <-]. now apply IH.
  - cbn. intros [= <-]. now apply reading_Raise in Hx.
Qed.

(** Past the check, [get_tag_readings] is the body of its with-block. *)
Lemma get_tag_readings_checked (srv : Server) (self : Historian)
    (tag_id : string) (start_time end_time : datetime)
    (escape_slashes : bool) (log : list event) :
  Datetime.le start_time end_time = Ok true ->
  get_tag_readings srv self tag_id start_time end_time escape_slashes log
  = with_cursor srv self (
      t0 ← lift (localize (timezone self) start_time);
      t1 ← lift (localize (timezone self) end_time);
      rows ← execute srv (SelectRaw (sent_id escape_slashes tag_id) t0 t1);
      lift (mapM (reading self) rows)) log.
Proof.
  intros Hle. unfold get_tag_readings, sent_id.
  unfold lift at 1. unfold mbind at 1. unfold io_bind at 1. now rewrite Hle.
Qed.

Lemma get_tag_readings_past_check (srv : Server) (self : Historian)
    (tag_id : string) (start_time end_time : datetime)
    (escape_slashes : bool) (log : list event) :
  Datetime.le start_time end_time = Ok true ->
  fst (get_tag_readings srv self tag_id start_time end_time escape_slashes log)
  <> Raise (ValueError range_message)
  /\ exists rest,
       snd (get_tag_readings srv self tag_id start_time end_time
              escape_slashes log)
       = (log ++ connect_of self :: rest)%list.
Proof.
  intros Hle. rewrite (get_tag_readings_checked _ _ _ _ _ _ _ Hle).
  unfold with_cursor, connect_of.
  destruct (login_error srv _ _ _ _) as [msg |] eqn:Hin.
  { split; [discriminate | now exists []]. }
  unfold execute, lift, mbind, io_bind.
  destruct (localize (timezone self) start_time) as [t0 | e0] eqn:H0.
  2:{ cbn. apply localize_Raise in H0 as ->.
      split; [apply not_naive_is_not_range |].
      exists [Close]. now rewrite <- app_assoc. }
  destruct (localize (timezone self) end_time) as [t1 | e1] eqn:H1.
  2:{ cbn. apply localize_Raise in H1 as ->.
      split; [apply not_naive_is_not_range |].
      exists [Close]. now rewrite <- app_assoc. }
  destruct (run srv _) as [rows | e] eqn:Hrun; cbn.
  - split; [| eexists; now rewrite <- !app_assoc].
    intros H. apply mapM_reading_Raise in H. discriminate H.
  - apply run_Raise in Hrun as [msg ->].
    split; [discriminate | eexists; now rewrite <- !app_assoc].
Qed.

(** X7. A range of one instant is accepted: with [start_time] equal to
    [end_time], naive or aware, [get_tag_readings] does not raise the
    range error and goes on to connect. *)
Theorem get_tag_readings_equal_bounds (srv : Server) (self : Historian)
    (tag_id : string) (t : datetime) (escape_slashes : bool)
    (log : list event) :
  fst (get_tag_readings srv self tag_id t t escape_slashes log)
  <> Raise (ValueError range_message)
  /\ exists rest,
       snd (get_tag_readings srv self tag_id t t escape_slashes log)
       = (log ++ connect_of self :: rest)%list.
Proof.
  apply get_tag_readings_past_check.
  unfold Datetime.le. now rewrite cmp_refl.
Qed.

(** X8. For two naive bounds the range error is raised exactly when the
    fields of [start_time], read as the tuple year, month, day, hour,
    minute, second, microsecond, compare greater than those of [end_time];
    then the log is untouched, and otherwise the call connects. *)
Theorem get_tag_readings_range_error_iff (srv : Server) (self : Historian)
    (tag_id : string) (start_time end_time : datetime)
    (escape_slashes : bool) (log : list event) :
  is_naive start_time = true ->
  is_naive end_time = true ->
  (fst (get_tag_readings srv self tag_id start_time end_time escape_slashes
          log) = Raise (ValueError range_message)
   <-> lex_compare (fields start_time) (fields end_time) = Gt)
  /\ (lex_compare (fields start_time) (fields end_time) = Gt ->
      snd (get_tag_readings srv self tag_id start_time end_time
             escape_slashes log) = log)
  /\ (lex_compare (fields start_time) (fields end_time) <> Gt ->
      exists rest,
        snd (get_tag_readings srv self tag_id start_time end_time
               escape_slashes log)
        = (log ++ connect_of self :: rest)%list).
Proof.
  intros Hs He. pose proof (cmp_naive _ _ Hs He) as Hcmp.
  destruct (lex_compare (fields start_time) (fields end_time)) eqn:Hc.
  1,2: assert (Hle : Datetime.le start_time end_time = Ok true)
         by (unfold Datetime.le; now rewrite Hcmp);
       destruct (get_tag_readings_past_check srv self tag_id start_time
                   end_time escape_slashes log Hle) as [Hne Hlog];
       (split; [split; [intros H; contradiction | discriminate] |]);
       (split; [discriminate | intros _; exact Hlog]).
  assert (Hgt : Datetime.gt start_time end_time = Ok true)
    by (unfold Datetime.gt; now rewrite Hcmp).
  apply gt_not_le in Hgt.
  unfold get_tag_readings, lift, mbind, io_bind. rewrite Hgt. cbn.
  split; [split; reflexivity |]. split; [reflexivity | congruence].
Qed.

Lemma get_tag_readings_range_error_iff_witness :
  (fst (get_tag_readings (serving sample_rows) plant "PLT.src/a" late early
          true []) = Raise (ValueError range_message)
   <-> lex_compare (fields late) (fields early) = Gt)
  /\ (lex_compare (fields late) (fields early) = Gt ->
      snd (get_tag_readings (serving sample_rows) plant "PLT.src/a" late
             early true []) = [])
  /\ (lex_compare (fields late) (fields early) <> Gt ->
      exists rest,
        snd (get_tag_readings (serving sample_rows) plant "PLT.src/a" late
               early true [])
        = ([] ++ connect_of plant :: rest)%list).
Proof.
  apply (get_tag_readings_range_error_iff (serving sample_rows) plant
           "PLT.src/a" late early true []); reflexivity.
Defined.

(** X9. With one bound naive and the other aware, the comparison of
    [get_tag_readings] raises a [TypeError], and nothing has connected. *)
Theorem get_tag_readings_mixed_bounds (srv : Server) (self : Historian)
    (tag_id : string) (start_time end_time : datetime)
    (escape_slashes : bool) (log : list event) :
  is_naive start_time <> is_naive end_time ->
  get_tag_readings srv self tag_id start_time end_time escape_slashes log
  = (Raise (TypeError mixed_message), log).
Proof.
  intros H. unfold get_tag_readings, lift, mbind, io_bind, Datetime.le.
  now rewrite (cmp_mixed _ _ H).
Qed.

Lemma get_tag_readings_mixed_bounds_witness :
  get_tag_readings (serving sample_rows) plant "PLT.src/a" early
    (in_utc late) true []
  = (Raise (TypeError mixed_message), []).
Proof.
  apply (get_tag_readings_mixed_bounds (serving sample_rows) plant
           "PLT.src/a" early (in_utc late) true []).
  discriminate.
Defined.

(** ** Bounds that are already aware *)

Lemma localize_not_naive (tz : Zone) (dt : datetime) :
  is_naive dt = false -> localize tz dt = Raise (ValueError not_naive_message).
Proof.
  unfold is_naive, localize. destruct (dt_tzinfo dt); [reflexivity | discriminate].
Qed.

Lemma localize_total (tz : Zone) (dt : datetime) :
  (exists t, localize tz dt = Ok t)
  \/ localize tz dt = Raise (ValueError not_naive_message).
Proof.
  unfold localize. destruct (dt_tzinfo dt); [now right | left; now eexists].
Qed.

(** What the body shared by the three ranged reads does when a bound is
    aware: it raises before [execute]. *)
Lemma aware_bound_body {A : Type} (srv : Server) (self : Historian)
    (start_time end_time : datetime) (k : datetime -> datetime -> io A)
    (log : list event) :
  lets_in srv self ->
  is_naive start_time = false \/ is_naive end_time = false ->
  with_cursor srv self (
    t0 ← lift (localize (timezone self) start_time);
    t1 ← lift (localize (timezone self) end_time);
    k t0 t1) log
  = (Raise (ValueError not_naive_message),
     (log ++ [connect_of self; Close])%list).
Proof.
  intros Hin Haware. unfold with_cursor, connect_of.
  unfold lets_in in Hin. rewrite Hin.
  unfold lift, mbind, io_bind.
  destruct (localize_total (timezone self) start_time) as [[t0 H0] | H0];
    rewrite H0.
  - destruct Haware as [Hs | He].
    + rewrite (localize_not_naive _ _ Hs) in H0. discriminate.
    + rewrite (localize_not_naive _ _ He). now rewrite <- app_assoc.
  - now rewrite <- app_assoc.
Qed.

(** X10. A bound that already has a [tzinfo] is refused by [localize]
    only inside the with-block: once the server lets the client in, each
    ranged read raises that [ValueError] after connecting, sends no
    statement, and closes the connection. For [get_tag_readings] this is
    so when the bounds pass its range check. *)
Theorem aware_bounds_refused_after_connect (srv : Server) (self : Historian)
    (tag_id : string) (tag_ids : list string)
    (start_time end_time : datetime) (step_size : Z) (aggregate : string)
    (escape_slash remove_microseconds : bool) (log : list event) :
  lets_in srv self ->
  is_naive start_time = false \/ is_naive end_time = false ->
  get_tags_readings srv self tag_ids start_time end_time escape_slash log
  = (Raise (ValueError not_naive_message),
     (log ++ [connect_of self; Close])%list)
  /\ get_tags_readings_interpolated srv self tag_ids start_time end_time
       step_size aggregate escape_slash remove_microseconds log
     = (Raise (ValueError not_naive_message),
        (log ++ [connect_of self; Close])%list)
  /\ (Datetime.le start_time end_time = Ok true ->
      get_tag_readings srv self tag_id start_time end_time escape_slash log
      = (Raise (ValueError not_naive_message),
         (log ++ [connect_of self; Close])%list)).
Proof.
  intros Hin Haware. split; [| split].
  - unfold get_tags_readings. now apply aware_bound_body.
  - unfold get_tags_readings_interpolated. now apply aware_bound_body.
  - intros Hle. rewrite (get_tag_readings_checked _ _ _ _ _ _ _ Hle).
    now apply aware_bound_body.
Qed.

Lemma aware_bounds_refused_after_connect_witness :
  get_tags_readings (serving sample_rows) plant sample_ids (in_utc early)
    (in_utc late) true []
  = (Raise (ValueError not_naive_message),
     ([] ++ [connect_of plant; Close])%list)
  /\ get_tags_readings_interpolated (serving sample_rows) plant sample_ids
       (in_utc early) (in_utc late) default_step_size default_aggregate true
       true []
     = (Raise (ValueError not_naive_message),
        ([] ++ [connect_of plant; Close])%list)
  /\ (Datetime.le (in_utc early) (in_utc late) = Ok true ->
      get_tag_readings (serving sample_rows) plant "PLT.src/a" (in_utc early)
        (in_utc late) true []
      = (Raise (ValueError not_naive_message),
         ([] ++ [connect_of plant; Close])%list)).
Proof.
  apply (aware_bounds_refused_after_connect (serving sample_rows) plant
           "PLT.src/a" sample_ids (in_utc early) (in_utc late)
           default_step_size default_aggregate true true []).
  - reflexivity.
  - left. reflexivity.
Defined.

Example aware_bounds_ordered : Datetime.le (in_utc early) (in_utc late) = Ok true.
Proof. reflexivity. Qed.

(** ** A server that refuses the login *)

Lemma refused_body {A : Type} (srv : Server) (self : Historian)
    (body : io A) (msg : string) (log : list event) :
  login_error srv (server self) (user self) (password self) (database self)
  = Some msg ->
  with_cursor srv self body log
  = (Raise (DatabaseError msg), (log ++ [connect_of self])%list).
Proof. intros H. unfold with_cursor, connect_of. now rewrite H. Qed.

(** X11. When the server refuses the login, every read raises the
    database error with the server's message; the log has the [Connect]
    and nothing after it: no statement is sent and there is no connection
    to close. For [get_tag_readings] this is so when the bounds pass its
    range check. *)
Theorem refused_login_raises (srv : Server) (self : Historian)
    (tag_id : string) (tag_ids : list string)
    (start_time end_time : datetime) (step_size : Z) (aggregate : string)
    (escape_slash remove_microseconds : bool) (msg : string)
    (log : list event) :
  login_error srv (server self) (user self) (password self) (database self)
  = Some msg ->
  get_current_tag_reading srv self tag_id escape_slash log
  = (Raise (DatabaseError msg), (log ++ [connect_of self])%list)
  /\ get_current_tags_readings srv self tag_ids escape_slash log
     = (Raise (DatabaseError msg), (log ++ [connect_of self])%list)
  /\ get_tags_readings srv self tag_ids start_time end_time escape_slash log
     = (Raise (DatabaseError msg), (log ++ [connect_of self])%list)
  /\ get_tags_readings_interpolated srv self tag_ids start_time end_time
       step_size aggregate escape_slash remove_microseconds log
     = (Raise (DatabaseError msg), (log ++ [connect_of self])%list)
  /\ (Datetime.le start_time end_time = Ok true ->
      get_tag_readings srv self tag_id start_time end_time escape_slash log
      = (Raise (DatabaseError msg), (log ++ [connect_of self])%list)).
Proof.
  intros H. repeat apply conj.
  - unfold get_current_tag_reading. now apply refused_body.
  - unfold get_current_tags_readings. now apply refused_body.
  - unfold get_tags_readings. now apply refused_body.
  - unfold get_tags_readings_interpolated. now apply refused_body.
  - intros Hle. rewrite (get_tag_readings_checked _ _ _ _ _ _ _ Hle).
    now apply refused_body.
Qed.

Lemma refused_login_raises_witness :
  get_current_tag_reading (refusing "Login failed") plant "PLT.src/a" true []
  = (Raise (DatabaseError "Login failed"), ([] ++ [connect_of plant])%list)
  /\ get_current_tags_readings (refusing "Login failed") plant sample_ids
       true []
     = (Raise (DatabaseError "Login failed"), ([] ++ [connect_of plant])%list)
  /\ get_tags_readings (refusing "Login failed") plant sample_ids early late
       true []
     = (Raise (DatabaseError "Login failed"), ([] ++ [connect_of plant])%list)
  /\ get_tags_readings_interpolated (refusing "Login failed") plant
       sample_ids early late default_step_size default_aggregate true true []
     = (Raise (DatabaseError "Login failed"), ([] ++ [connect_of plant])%list)
  /\ (Datetime.le early late = Ok true ->
      get_tag_readings (refusing "Login failed") plant "PLT.src/a" early late
        true []
      = (Raise (DatabaseError "Login failed"),
         ([] ++ [connect_of plant])%list)).
Proof.
  apply (refused_login_raises (refusing "Login failed") plant "PLT.src/a"
           sample_ids early late default_step_size default_aggregate true
           true "Login failed" []).
  reflexivity.
Defined.

(** ** One connection, at most one statement, always closed *)

Section Sessions.

Variable srv : Server.
Variable self : Historian.
Hypothesis Hin : lets_in srv self.

Lemma session_execute {A : Type} (q : statement)
    (k : list Row -> outcome A) (log : list event) :
  one_session self log
    (snd (with_cursor srv self (rows ← execute srv q; lift (k rows)) log)).
Proof.
  unfold with_cursor, connect_of. unfold lets_in in Hin. rewrite Hin.
  unfold execute, lift, mbind, io_bind.
  exists [Execute q]. split; [| right; now exists q].
  destruct (run srv q); cbn; now rewrite <- !app_assoc.
Qed.

Lemma session_ranged {A : Type} (start_time end_time : datetime)
    (q : datetime -> datetime -> statement) (k : list Row -> outcome A)
    (log : list event) :
  one_session self log
    (snd (with_cursor srv self (
            t0 ← lift (localize (timezone self) start_time);
            t1 ← lift (localize (timezone self) end_time);
            rows ← execute srv (q t0 t1);
            lift (k rows)) log)).
Proof.
  unfold with_cursor, connect_of. unfold lets_in in Hin. rewrite Hin.
  unfold execute, lift, mbind, io_bind.
  destruct (localize (timezone self) start_time) as [t0 |].
  2:{ exists []. split; [cbn; now rewrite <- app_assoc | now left]. }
  destruct (localize (timezone self) end_time) as [t1 |].
  2:{ exists []. split; [cbn; now rewrite <- app_assoc | now left]. }
  exists [Execute (q t0 t1)]. split; [| right; now eexists].
  destruct (run srv (q t0 t1)); cbn; now rewrite <- !app_assoc.
Qed.

End Sessions.

(** X12. Once the server lets the client in, whatever a read returns or
    raises, it leaves in the log its [Connect], at most one [Execute] and
    then the [Close]: the connection is closed on every way out and no
    read sends two statements. [get_tag_readings] may instead leave the
    log as it was, when it stops at its range check. *)
Theorem reads_close_their_connection (srv : Server) (self : Historian)
    (tag_id : string) (tag_ids : list string)
    (start_time end_time : datetime) (step_size : Z) (aggregate : string)
    (escape_slash remove_microseconds : bool) (log : list event) :
  lets_in srv self ->
  one_session self log
    (snd (get_current_tag_reading srv self tag_id escape_slash log))
  /\ one_session self log
       (snd (get_current_tags_readings srv self tag_ids escape_slash log))
  /\ one_session self log
       (snd (get_tags_readings srv self tag_ids start_time end_time
               escape_slash log))
  /\ one_session self log
       (snd (get_tags_readings_interpolated srv self tag_ids start_time
               end_time step_size aggregate escape_slash remove_microseconds
               log))
  /\ (snd (get_tag_readings srv self tag_id start_time end_time escape_slash
             log) = log
      \/ one_session self log
           (snd (get_tag_readings srv self tag_id start_time end_time
                   escape_slash log))).
Proof.
  intros Hin. repeat apply conj.
  - rewrite (get_current_tag_reading_script srv self tag_id escape_slash log
               Hin).
    exists [Execute (SelectCurrent (sent_id escape_slash tag_id))].
    split; [reflexivity | right; now eexists].
  - rewrite (get_current_tags_readings_script srv self tag_ids escape_slash
               log Hin).
    exists [Execute (SelectCurrent (sent_ids escape_slash tag_ids))].
    split; [reflexivity | right; now eexists].
  - unfold get_tags_readings.
    exact (session_ranged srv self Hin start_time end_time
             (SelectRaw _) _ log).
  - unfold get_tags_readings_interpolated.
    exact (session_ranged srv self Hin start_time end_time
             (fun t0 t1 => SelectInterpolated _ t0 t1 aggregate step_size)
             _ log).
  - destruct (Datetime.le start_time end_time) as [[|] | e] eqn:Hle.
    + right. rewrite (get_tag_readings_checked _ _ _ _ _ _ _ Hle).
      exact (session_ranged srv self Hin start_time end_time
               (SelectRaw _) _ log).
    + left. unfold get_tag_readings, lift, mbind, io_bind. now rewrite Hle.
    + left. unfold get_tag_readings, lift, mbind, io_bind. now rewrite Hle.
Qed.

Lemma reads_close_their_connection_witness :
  one_session plant []
    (snd (get_current_tag_reading (serving sample_rows) plant "PLT.src/a"
            true []))
  /\ one_session plant []
       (snd (get_current_tags_readings (serving sample_rows) plant
               sample_ids true []))
  /\ one_session plant []
       (snd (get_tags_readings (serving sample_rows) plant sample_ids
               (in_utc early) late true []))
  /\ one_session plant []
       (snd (get_tags_readings_interpolated (serving sample_rows) plant
               sample_ids (in_utc early) late default_step_size
               default_aggregate true true []))
  /\ (snd (get_tag_readings (serving sample_rows) plant "PLT.src/a"
             (in_utc early) late true []) = []
      \/ one_session plant []
           (snd (get_tag_readings (serving sample_rows) plant "PLT.src/a"
                   (in_utc early) late true []))).
Proof.
  apply (reads_close_their_connection (serving sample_rows) plant "PLT.src/a"
           sample_ids (in_utc early) late default_step_size default_aggregate
           true true []).
  reflexivity.
Defined.

(** ** The current readings of several tags *)

Lemma latest_by_id_lookup (self : Historian) (rows : list Row) :
  forall acc m,
    latest_by_id self acc rows = Ok m ->
    forall k,
      m !! k = match last (rows_of k rows) with
               | Some r => Some (reading_of self r)
               | None => acc !! k
               end.
Proof.
  induction rows as [| r rest IH]; intros acc m H k.
  - cbn in H. now injection H as <-.
  - cbn [latest_by_id] in H.
    destruct (reading self r) as [x | e] eqn:Hx; [| discriminate].
    apply reading_Ok in Hx as [-> _]. cbn in H.
    rewrite (IH _ _ H k).
    destruct (decide (Id r = k)) as [<- | N].
    + rewrite rows_of_cons_eq, last_cons, lookup_insert_eq.
      now destruct (last (rows_of (Id r) rest)).
    + rewrite rows_of_cons_ne, lookup_insert_ne by assumption. reflexivity.
Qed.

(** X13. When the cursor delivers [rows], [get_current_tags_readings]
    returns a map that holds, under each identifier, the reading of the
    last of that identifier's rows, and nothing under an identifier
    without a row. *)
Theorem get_current_tags_readings_latest (srv : Server) (self : Historian)
    (tag_ids : list string) (escape_slash : bool) (log : list event)
    (rows : list Row) :
  lets_in srv self ->
  run srv (SelectCurrent (sent_ids escape_slash tag_ids)) = Ok rows ->
  naive_rows rows ->
  exists m,
    fst (get_current_tags_readings srv self tag_ids escape_slash log) = Ok m
    /\ forall k, m !! k = reading_of self <$> last (rows_of k rows).
Proof.
  intros Hin Hrun Hnaive.
  destruct (latest_by_id_total self rows Hnaive ∅) as [m Hm].
  exists m. split.
  - rewrite (get_current_tags_readings_script srv self tag_ids escape_slash
               log Hin).
    cbn [fst]. now rewrite Hrun.
  - intros k. rewrite (latest_by_id_lookup self rows ∅ m Hm k).
    now destruct (last (rows_of k rows)).
Qed.

Lemma get_current_tags_readings_latest_witness :
  exists m,
    fst (get_current_tags_readings (serving sample_rows) plant sample_ids
           true []) = Ok m
    /\ forall k,
         m !! k
         = reading_of plant <$> last (rows_of k (select_columns sample_rows)).
Proof.
  apply (get_current_tags_readings_latest (serving sample_rows) plant
           sample_ids true [] (select_columns sample_rows)).
  - reflexivity.
  - reflexivity.
  - repeat constructor.
Defined.

Example sample_current_values :
  (m ← fst (get_current_tags_readings (serving sample_rows) plant sample_ids
              true []);
   mret (value <$> m !! "PLT.src/a", value <$> m !! "PLT.src.b",
         value <$> m !! "PLT.src.c"))
  = Ok (Some 4%float, Some 2%float, None).
Proof. vm_compute. reflexivity. Qed.

(** X14. When every row the cursor delivers belongs to one identifier,
    asking for that tag alone through the batched current read gives,
    under the identifier, what [get_current_tag_reading] returns, and
    nothing under any other key. *)
Theorem current_single_and_batched_agree (srv : Server) (self : Historian)
    (tag_id k : string) (escape_slash : bool) (log : list event)
    (rows : list Row) :
  lets_in srv self ->
  run srv (SelectCurrent (sent_id escape_slash tag_id)) = Ok rows ->
  naive_rows rows ->
  Forall (fun r => Id r = k) rows ->
  exists r m,
    fst (get_current_tag_reading srv self tag_id escape_slash log) = Ok r
    /\ fst (get_current_tags_readings srv self [tag_id] escape_slash log)
       = Ok m
    /\ m !! k = r
    /\ forall k', k' <> k -> m !! k' = None.
Proof.
  intros Hin Hrun Hnaive Hk.
  assert (Hsent : sent_ids escape_slash [tag_id] = sent_id escape_slash tag_id)
    by now destruct escape_slash.
  destruct (latest_by_id_total self rows Hnaive ∅) as [m Hm].
  assert (Hall : rows_of k rows = rows).
  { unfold rows_of. clear -Hk. induction Hk as [| r rest Hr _ IH];
      [reflexivity |]. now rewrite filter_cons_True, IH. }
  assert (Hother : forall k', k' <> k -> rows_of k' rows = []).
  { intros k' N. unfold rows_of. clear -Hk N.
    induction Hk as [| r rest Hr _ IH]; [reflexivity |].
    rewrite filter_cons_False by congruence. exact IH. }
  exists (reading_of self <$> last rows), m. repeat apply conj.
  - rewrite (get_current_tag_reading_script srv self tag_id escape_slash log
               Hin).
    cbn [fst]. rewrite Hrun. destruct rows as [| r0 rest]; [reflexivity |].
    destruct (proj2 (last_is_Some (r0 :: rest))) as [r Hr]; [discriminate |].
    unfold mbind, outcome_bind. cbv beta iota.
    rewrite (last_default _ r r0 Hr), Hr.
    rewrite reading_naive; [reflexivity |].
    apply last_Some_elem_of in Hr.
    exact (proj1 (Forall_forall _ _) Hnaive r Hr).
  - rewrite (get_current_tags_readings_script srv self [tag_id] escape_slash
               log Hin).
    cbn [fst]. now rewrite Hsent, Hrun.
  - rewrite (latest_by_id_lookup self rows ∅ m Hm k), Hall.
    now destruct (last rows).
  - intros k' N. rewrite (latest_by_id_lookup self rows ∅ m Hm k'),
      (Hother k' N). reflexivity.
Qed.

Lemma current_single_and_batched_agree_witness :
  exists r m,
    fst (get_current_tag_reading (serving sample_rows_a) plant "PLT.src/a"
           true []) = Ok r
    /\ fst (get_current_tags_readings (serving sample_rows_a) plant
              ["PLT.src/a"] true []) = Ok m
    /\ m !! "PLT.src/a" = r
    /\ forall k', k' <> "PLT.src/a" -> m !! k' = None.
Proof.
  apply (current_single_and_batched_agree (serving sample_rows_a) plant
           "PLT.src/a" "PLT.src/a" true [] (select_columns sample_rows_a)).
  - reflexivity.
  - reflexivity.
  - repeat constructor.
  - repeat constructor.
Defined.

(** ** The readings of one tag over a range *)

Lemma reading_of_copies (self : Historian) (r : Row) :
  value (reading_of self r) = Value r
  /\ quality (reading_of self r) = Quality r
  /\ fields (timestamp (reading_of self r)) = fields (Timestamp r)
  /\ is_naive (timestamp (reading_of self r)) = false.
Proof. repeat split. Qed.

(** X15. With bounds in order and the cursor delivering [rows],
    [get_tag_readings] returns one reading for each row, in the order of
    the rows, with the row's value, quality and wall-clock fields and an
    aware timestamp; the log has the [Connect], the statement with the
    identifier as sent and the localized bounds, and the [Close]. *)
Theorem get_tag_readings_row_by_row (srv : Server) (self : Historian)
    (tag_id : string) (start_time end_time t0 t1 : datetime)
    (escape_slashes : bool) (log : list event) (rows : list Row) :
  Datetime.le start_time end_time = Ok true ->
  lets_in srv self ->
  localize (timezone self) start_time = Ok t0 ->
  localize (timezone self) end_time = Ok t1 ->
  run srv (SelectRaw (sent_id escape_slashes tag_id) t0 t1) = Ok rows ->
  naive_rows rows ->
  exists l,
    get_tag_readings srv self tag_id start_time end_time escape_slashes log
    = (Ok l,
       (log ++ [connect_of self;
                Execute (SelectRaw (sent_id escape_slashes tag_id) t0 t1);
                Close])%list)
    /\ length l = length rows
    /\ forall i r,
         rows !! i = Some r ->
         exists x,
           l !! i = Some x
           /\ value x = Value r
           /\ quality x = Quality r
           /\ fields (timestamp x) = fields (Timestamp r)
           /\ is_naive (timestamp x) = false.
Proof.
  intros Hle Hin H0 H1 Hrun Hnaive.
  exists (reading_of self <$> rows). split; [| split].
  - rewrite (get_tag_readings_script srv self tag_id start_time end_time
               t0 t1 escape_slashes log Hle Hin H0 H1).
    rewrite Hrun. cbn. now rewrite (mapM_reading_naive self rows Hnaive).
  - apply length_fmap.
  - intros i r Hr. exists (reading_of self r).
    split; [now rewrite list_lookup_fmap, Hr |].
    apply reading_of_copies.
Qed.

Lemma get_tag_readings_row_by_row_witness :
  exists l,
    get_tag_readings (serving sample_rows) plant "PLT.src/a" early late true
      []
    = (Ok l,
       ([] ++ [connect_of plant;
               Execute (SelectRaw (sent_id true "PLT.src/a") (in_utc early)
                          (in_utc late));
               Close])%list)
    /\ length l = length (select_columns sample_rows)
    /\ forall i r,
         select_columns sample_rows !! i = Some r ->
         exists x,
           l !! i = Some x
           /\ value x = Value r
           /\ quality x = Quality r
           /\ fields (timestamp x) = fields (Timestamp r)
           /\ is_naive (timestamp x) = false.
Proof.
  apply (get_tag_readings_row_by_row (serving sample_rows) plant "PLT.src/a"
           early late (in_utc early) (in_utc late) true []
           (select_columns sample_rows)).
  - reflexivity.
  - reflexivity.
  - reflexivity.
  - reflexivity.
  - reflexivity.
  - repeat constructor.
Defined.

(** ** Rows the historian flagged *)

Lemma select_columns_selected (raw : list HistorianRow) :
  select_columns raw
  = selected <$> filter (fun r => shistorianquality r <> "NoBound") raw.
Proof. reflexivity. Qed.

Lemma select_columns_elem (raw : list HistorianRow) (row : Row) :
  row ∈ select_columns raw
  <-> exists r, r ∈ raw /\ ~ flagged r /\ row = selected r.
Proof.
  rewrite select_columns_selected, list_elem_of_fmap. unfold flagged. split.
  - intros (r & -> & Hr). apply list_elem_of_filter in Hr as [Hq Hr].
    now exists r.
  - intros (r & Hr & Hq & ->). exists r. split; [reflexivity |].
    apply list_elem_of_filter. now split.
Qed.

Lemma select_columns_all_flagged (raw : list HistorianRow) :
  Forall flagged raw -> select_columns raw = [].
Proof.
  rewrite select_columns_selected. unfold flagged.
  induction 1 as [| r rest Hr _ IH]; [reflexivity |].
  rewrite filter_cons_False by (intros N; now apply N). exact IH.
Qed.

(** X16. No reading comes from a row the historian flagged [NoBound]:
    what [get_tag_readings] returns are exactly the readings of the
    historian's rows that are not flagged, and when every row is flagged
    it returns the empty list and [get_current_tag_reading] returns
    [None]. *)
Theorem flagged_rows_never_returned (srv : Server) (self : Historian)
    (tag_id : string) (start_time end_time t0 t1 : datetime)
    (escape_slashes : bool) (log : list event)
    (raw current : list HistorianRow) :
  Datetime.le start_time end_time = Ok true ->
  lets_in srv self ->
  localize (timezone self) start_time = Ok t0 ->
  localize (timezone self) end_time = Ok t1 ->
  readrawtags srv (sent_id escape_slashes tag_id) (Bound t0) (Bound t1)
  = Rows raw ->
  readrawtags srv (sent_id escape_slashes tag_id) CURRENT_TIMESTAMP
    CURRENT_TIMESTAMP = Rows current ->
  Forall (fun r => is_naive (h_timestamp r) = true) raw ->
  exists l,
    fst (get_tag_readings srv self tag_id start_time end_time escape_slashes
           log) = Ok l
    /\ (forall x, x ∈ l <->
          exists r, r ∈ raw /\ ~ flagged r
                    /\ x = reading_of self (selected r))
    /\ (Forall flagged raw -> l = [])
    /\ (Forall flagged current ->
        fst (get_current_tag_reading srv self tag_id escape_slashes log)
        = Ok None).
Proof.
  intros Hle Hin H0 H1 Hraw Hcur Hnaive.
  assert (Hrun : run srv (SelectRaw (sent_id escape_slashes tag_id) t0 t1)
                 = Ok (select_columns raw)) by (unfold run; now rewrite Hraw).
  assert (Hrows : naive_rows (select_columns raw)).
  { apply Forall_forall. intros row Hrow.
    apply select_columns_elem in Hrow as (r & Hr & _ & ->).
    exact (proj1 (Forall_forall _ _) Hnaive r Hr). }
  exists (reading_of self <$> select_columns raw).
  split; [| split; [| split]].
  - rewrite (get_tag_readings_script srv self tag_id start_time end_time
               t0 t1 escape_slashes log Hle Hin H0 H1).
    cbn [fst]. rewrite Hrun. cbn.
    now rewrite (mapM_reading_naive self _ Hrows).
  - intros x. split.
    + intros (row & -> & Hrow)%list_elem_of_fmap.
      apply select_columns_elem in Hrow as (r & Hr & Hq & ->). now exists r.
    + intros (r & Hr & Hq & ->). apply list_elem_of_fmap.
      exists (selected r). split; [reflexivity |].
      apply select_columns_elem. now exists r.
  - intros Hall. now rewrite (select_columns_all_flagged raw Hall).
  - intros Hall.
    rewrite (get_current_tag_reading_script srv self tag_id escape_slashes
               log Hin).
    cbn. rewrite Hcur. cbn.
    now rewrite (select_columns_all_flagged current Hall).
Qed.

Lemma flagged_rows_never_returned_witness :
  exists l,
    fst (get_tag_readings (serving sample_rows) plant "PLT.src/a" early late
           true []) = Ok l
    /\ (forall x, x ∈ l <->
          exists r, r ∈ sample_rows /\ ~ flagged r
                    /\ x = reading_of plant (selected r))
    /\ (Forall flagged sample_rows -> l = [])
    /\ (Forall flagged sample_rows ->
        fst (get_current_tag_reading (serving sample_rows) plant "PLT.src/a"
               true []) = Ok None).
Proof.
  apply (flagged_rows_never_returned (serving sample_rows) plant "PLT.src/a"
           early late (in_utc early) (in_utc late) true [] sample_rows
           sample_rows).
  - reflexivity.
  - reflexivity.
  - reflexivity.
  - reflexivity.
  - reflexivity.
  - reflexivity.
  - repeat constructor.
Defined.

(** ** Identifiers out and back *)

Lemma group_by_id_dom (self : Historian) (rows : list Row)
    (m : gmap string (list TagReading)) :
  group_by_id (reading self) ∅ rows = Ok m ->
  forall k, k ∈ dom m <-> k ∈ Id <$> rows.
Proof.
  intros Hm k.
  assert (Hlook : m !! k = appended (reading_of self) ∅ k rows).
  { eapply group_by_id_lookup; [| exact Hm].
    intros r x Hx. now apply reading_Ok in Hx. }
  rewrite elem_of_dom, Hlook, appended_empty.
  destruct (decide (k ∈ Id <$> rows)) as [Hk | Hk].
  - split; [intros _; exact Hk | intros _; now eexists].
  - split; [intros [l Hl]; discriminate | intros H; contradiction].
Qed.

(** X17. Against a historian that names its rows by the identifiers as
    they were sent (escaped), the keys of [get_tags_readings] are
    identifiers that were asked for, and an identifier is a key exactly
    when the historian has a row for it that is not flagged. *)
Theorem requested_ids_come_back (srv : Server) (self : Historian)
    (tag_ids : list string) (start_time end_time t0 t1 : datetime)
    (log : list event) (raw : list HistorianRow) :
  lets_in srv self ->
  localize (timezone self) start_time = Ok t0 ->
  localize (timezone self) end_time = Ok t1 ->
  readrawtags srv (sent_ids true tag_ids) (Bound t0) (Bound t1) = Rows raw ->
  Forall (fun r => is_naive (h_timestamp r) = true) raw ->
  Forall (fun r => exists tag_id, tag_id ∈ tag_ids
                                  /\ tagname r = escape tag_id) raw ->
  exists m,
    fst (get_tags_readings srv self tag_ids start_time end_time true log)
    = Ok m
    /\ (forall k, k ∈ dom m -> k ∈ tag_ids)
    /\ (forall tag_id,
          tag_id ∈ dom m
          <-> exists r, r ∈ raw /\ ~ flagged r /\ tagname r = escape tag_id).
Proof.
  intros Hin H0 H1 Hraw Hnaive Hnames.
  assert (Hrun : run srv (SelectRaw (sent_ids true tag_ids) t0 t1)
                 = Ok (select_columns raw)) by (unfold run; now rewrite Hraw).
  assert (Hrows : naive_rows (select_columns raw)).
  { apply Forall_forall. intros row Hrow.
    apply select_columns_elem in Hrow as (r & Hr & _ & ->).
    exact (proj1 (Forall_forall _ _) Hnaive r Hr). }
  destruct (get_tags_readings_returns srv self tag_ids start_time end_time
              t0 t1 true log _ Hin H0 H1 Hrun Hrows) as [m Hres].
  exists m. split; [exact Hres |].
  apply get_tags_readings_Ok in Hres
    as (t0' & t1' & rows & _ & H0' & H1' & Hrun' & Hm).
  assert (rows = select_columns raw) as -> by congruence.
  pose proof (group_by_id_dom self _ m Hm) as Hdom.
  assert (Hkey : forall k,
            k ∈ Id <$> select_columns raw
            <-> exists r, r ∈ raw /\ ~ flagged r /\ collapse (tagname r) = k).
  { intros k. rewrite list_elem_of_fmap. split.
    - intros (row & -> & Hrow).
      apply select_columns_elem in Hrow as (r & Hr & Hq & ->). now exists r.
    - intros (r & Hr & Hq & <-). exists (selected r).
      split; [reflexivity |]. apply select_columns_elem. now exists r. }
  split.
  - intros k Hk. apply Hdom, Hkey in Hk as (r & Hr & _ & <-).
    destruct (proj1 (Forall_forall _ _) Hnames r Hr) as (tag_id & Hid & ->).
    now rewrite collapse_escape.
  - intros tag_id. rewrite Hdom, Hkey. split.
    + intros (r & Hr & Hq & Hc). exists r. repeat split; try assumption.
      destruct (proj1 (Forall_forall _ _) Hnames r Hr) as (id' & _ & Hn).
      rewrite Hn, collapse_escape in Hc. now subst.
    + intros (r & Hr & Hq & Hn). exists r. repeat split; try assumption.
      now rewrite Hn, collapse_escape.
Qed.

Lemma requested_ids_come_back_witness :
  exists m,
    fst (get_tags_readings (serving sample_rows) plant sample_ids early late
           true []) = Ok m
    /\ (forall k, k ∈ dom m -> k ∈ sample_ids)
    /\ (forall tag_id,
          tag_id ∈ dom m
          <-> exists r, r ∈ sample_rows /\ ~ flagged r
                        /\ tagname r = escape tag_id).
Proof.
  apply (requested_ids_come_back (serving sample_rows) plant sample_ids
           early late (in_utc early) (in_utc late) [] sample_rows).
  - reflexivity.
  - reflexivity.
  - reflexivity.
  - reflexivity.
  - repeat constructor.
  - repeat constructor.
    + exists "PLT.src/a". split; [now left | reflexivity].
    + exists "PLT.src.b". split; [right; now left | reflexivity].
    + exists "PLT.src/a". split; [now left | reflexivity].
    + exists "PLT.src/a". split; [now left | reflexivity].
Defined.

(** ** The interpolated read beside the raw one *)

Lemma group_by_id_truncated (self : Historian) (rows : list Row) :
  forall acc,
    group_by_id (reading_whole_second self) acc rows
    = group_by_id (reading self) acc (truncated <$> rows).
Proof.
  induction rows as [| row rest IH]; intros acc; [reflexivity |].
  rewrite fmap_cons. cbn [group_by_id].
  change (Id (truncated row)) with (Id row).
  rewrite reading_whole_second_truncated.
  destruct (acc !! Id row); destruct (reading self (truncated row)); cbn;
    try reflexivity; apply IH.
Qed.

(** X18. The interpolated read groups its rows as the raw batched read
    does: what it returns for rows [rows] is what [get_tags_readings]
    returns when its cursor delivers the same rows with the timestamps
    cut to the whole second. *)
Theorem interpolated_groups_like_raw (srv srv' : Server) (self : Historian)
    (tag_ids : list string) (start_time end_time t0 t1 : datetime)
    (step_size : Z) (aggregate : string)
    (escape_slash remove_microseconds : bool) (log log' : list event)
    (rows : list Row) :
  lets_in srv self ->
  lets_in srv' self ->
  localize (timezone self) start_time = Ok t0 ->
  localize (timezone self) end_time = Ok t1 ->
  run srv (SelectInterpolated (sent_ids escape_slash tag_ids) t0 t1
             aggregate step_size) = Ok rows ->
  run srv' (SelectRaw (sent_ids escape_slash tag_ids) t0 t1)
  = Ok (truncated <$> rows) ->
  fst (get_tags_readings_interpolated srv self tag_ids start_time end_time
         step_size aggregate escape_slash remove_microseconds log)
  = fst (get_tags_readings srv' self tag_ids start_time end_time escape_slash
           log').
Proof.
  intros Hin Hin' H0 H1 Hrun Hrun'.
  rewrite (get_tags_readings_interpolated_script srv self tag_ids start_time
             end_time t0 t1) by assumption.
  rewrite (get_tags_readings_script srv' self tag_ids start_time end_time
             t0 t1) by assumption.
  cbn [fst]. rewrite Hrun, Hrun'. cbn. apply group_by_id_truncated.
Qed.

Lemma interpolated_groups_like_raw_witness :
  fst (get_tags_readings_interpolated (serving sample_rows) plant sample_ids
         early late default_step_size default_aggregate true true [])
  = fst (get_tags_readings (serving sample_rows_whole) plant sample_ids early
           late true []).
Proof.
  apply (interpolated_groups_like_raw (serving sample_rows)
           (serving sample_rows_whole) plant sample_ids early late
           (in_utc early) (in_utc late) default_step_size default_aggregate
           true true [] [] (select_columns sample_rows)); reflexivity.
Defined.

(** ** Escaping a batch *)

Lemma escape_app (a b : string) : escape (a +:+ b) = escape a +:+ escape b.
Proof.
  induction a as [| c a IH]; [reflexivity |].
  change (String c a +:+ b) with (String c (a +:+ b)).
  destruct (escape_cases c (a +:+ b)) as [[-> E] | [Hc E]]; rewrite E, IH.
  - now rewrite escape_cons_slash.
  - now rewrite escape_cons_other.
Qed.

(** X19. Escaping goes through concatenation and through the [';']
    join: escaping every identifier and joining them, as the batched
    reads do, gives the same string as escaping the joined list. *)
Theorem escape_join (tag_ids : list string) :
  (forall a b, escape (a +:+ b) = escape a +:+ escape b)
  /\ sent_ids true tag_ids = escape (Str.join ";" tag_ids).
Proof.
  split; [apply escape_app |].
  unfold sent_ids. induction tag_ids as [| p ps IH]; [reflexivity |].
  destruct ps as [| q qs]; [reflexivity |].
  change (Str.join ";" (p :: q :: qs))
    with (p +:+ ";" +:+ Str.join ";" (q :: qs)).
  rewrite !escape_app, <- IH. reflexivity.
Qed.

(** ** Groups are never empty *)

(** X20. In a map that a batched ranged read returns, no key holds an
    empty list: a tag without rows has no key at all. *)
Theorem batched_groups_not_empty (srv : Server) (self : Historian)
    (tag_ids : list string) (start_time end_time : datetime)
    (step_size : Z) (aggregate : string)
    (escape_slash remove_microseconds : bool) (log : list event)
    (m : gmap string (list TagReading)) (k : string) (l : list TagReading) :
  fst (get_tags_readings srv self tag_ids start_time end_time escape_slash
         log) = Ok m
  \/ fst (get_tags_readings_interpolated srv self tag_ids start_time end_time
            step_size aggregate escape_slash remove_microseconds log) = Ok m ->
  m !! k = Some l ->
  l <> [].
Proof.
  intros [H | H] Hl.
  - apply get_tags_readings_Ok in H as (t0 & t1 & rows & _ & _ & _ & _ & Hm).
    assert (Hlook : m !! k = appended (reading_of self) ∅ k rows).
    { eapply group_by_id_lookup; [| exact Hm].
      intros r x Hx. now apply reading_Ok in Hx. }
    rewrite Hl, appended_empty in Hlook.
    destruct (decide (k ∈ Id <$> rows)) as [Hk | Hk]; [| discriminate].
    injection Hlook as ->. intros E. apply fmap_nil_inv in E.
    now apply rows_of_nil in E.
  - apply get_tags_readings_interpolated_Ok in H
      as (t0 & t1 & rows & _ & _ & _ & _ & Hm).
    rewrite (whole_second_lookup self rows m Hm) in Hl.
    destruct (decide (k ∈ Id <$> rows)) as [Hk | Hk]; [| discriminate].
    injection Hl as <-. intros E. apply fmap_nil_inv in E.
    now apply rows_of_nil in E.
Qed.

Lemma batched_groups_not_empty_witness :
  reading_of plant <$> rows_of "PLT.src/a" (select_columns sample_rows_a)
  <> [].
Proof.
  apply (batched_groups_not_empty (serving sample_rows_a) plant
           ["PLT.src/a"] early late default_step_size default_aggregate true
           true []
           (<[ "PLT.src/a" := reading_of plant <$> rows_of "PLT.src/a"
                                (select_columns sample_rows_a) ]>
              (∅ : gmap string (list TagReading)))
           "PLT.src/a").
  - left. vm_compute. reflexivity.
  - vm_compute. reflexivity.
Defined.

(** ** A statement that fails *)

(** X21. When the server lets the client in and its function fails, the
    read raises the database error with the server's message, unchanged,
    and the connection is closed after the statement. For the ranged
    reads the bounds are naive, and in order for [get_tag_readings]. *)
Theorem failed_statement_raises_and_closes (srv : Server) (self : Historian)
    (tag_id : string) (tag_ids : list string)
    (start_time end_time t0 t1 : datetime) (step_size : Z)
    (aggregate : string) (escape_slash remove_microseconds : bool)
    (msg : string) (log : list event) :
  lets_in srv self ->
  localize (timezone self) start_time = Ok t0 ->
  localize (timezone self) end_time = Ok t1 ->
  (forall ids a b, readrawtags srv ids a b = Failed msg) ->
  (forall ids a b g s, readinterpolatedtags srv ids a b g s = Failed msg) ->
  get_current_tag_reading srv self tag_id escape_slash log
  = (Raise (DatabaseError msg),
     (log ++ [connect_of self;
              Execute (SelectCurrent (sent_id escape_slash tag_id));
              Close])%list)
  /\ get_current_tags_readings srv self tag_ids escape_slash log
     = (Raise (DatabaseError msg),
        (log ++ [connect_of self;
                 Execute (SelectCurrent (sent_ids escape_slash tag_ids));
                 Close])%list)
  /\ get_tags_readings srv self tag_ids start_time end_time escape_slash log
     = (Raise (DatabaseError msg),
        (log ++ [connect_of self;
                 Execute (SelectRaw (sent_ids escape_slash tag_ids) t0 t1);
                 Close])%list)
  /\ get_tags_readings_interpolated srv self tag_ids start_time end_time
       step_size aggregate escape_slash remove_microseconds log
     = (Raise (DatabaseError msg),
        (log ++ [connect_of self;
                 Execute (SelectInterpolated (sent_ids escape_slash tag_ids)
                            t0 t1 aggregate step_size);
                 Close])%list)
  /\ (Datetime.le start_time end_time = Ok true ->
      get_tag_readings srv self tag_id start_time end_time escape_slash log
      = (Raise (DatabaseError msg),
         (log ++ [connect_of self;
                  Execute (SelectRaw (sent_id escape_slash tag_id) t0 t1);
                  Close])%list)).
Proof.
  intros Hin H0 H1 Hraw Hint.
  assert (Hrun : forall q, run srv q = Raise (DatabaseError msg)).
  { intros q. unfold run. destruct q; now rewrite ?Hraw, ?Hint. }
  repeat apply conj.
  - rewrite (get_current_tag_reading_script srv self tag_id escape_slash log
               Hin). now rewrite Hrun.
  - rewrite (get_current_tags_readings_script srv self tag_ids escape_slash
               log Hin). now rewrite Hrun.
  - rewrite (get_tags_readings_script srv self tag_ids start_time end_time
               t0 t1) by assumption. now rewrite Hrun.
  - rewrite (get_tags_readings_interpolated_script srv self tag_ids
               start_time end_time t0 t1) by assumption. now rewrite Hrun.
  - intros Hle.
    rewrite (get_tag_readings_script srv self tag_id start_time end_time
               t0 t1 escape_slash log Hle Hin H0 H1). now rewrite Hrun.
Qed.

Lemma failed_statement_raises_and_closes_witness :
  get_current_tag_reading (failing "Timeout expired") plant "PLT.src/a" true []
  = (Raise (DatabaseError "Timeout expired"),
     ([] ++ [connect_of plant;
             Execute (SelectCurrent (sent_id true "PLT.src/a"));
             Close])%list)
  /\ get_current_tags_readings (failing "Timeout expired") plant sample_ids
       true []
     = (Raise (DatabaseError "Timeout expired"),
        ([] ++ [connect_of plant;
                Execute (SelectCurrent (sent_ids true sample_ids));
                Close])%list)
  /\ get_tags_readings (failing "Timeout expired") plant sample_ids early
       late true []
     = (Raise (DatabaseError "Timeout expired"),
        ([] ++ [connect_of plant;
                Execute (SelectRaw (sent_ids true sample_ids) (in_utc early)
                           (in_utc late));
                Close])%list)
  /\ get_tags_readings_interpolated (failing "Timeout expired") plant
       sample_ids early late default_step_size default_aggregate true true []
     = (Raise (DatabaseError "Timeout expired"),
        ([] ++ [connect_of plant;
                Execute (SelectInterpolated (sent_ids true sample_ids)
                           (in_utc early) (in_utc late) default_aggregate
                           default_step_size);
                Close])%list)
  /\ (Datetime.le early late = Ok true ->
      get_tag_readings (failing "Timeout expired") plant "PLT.src/a" early
        late true []
      = (Raise (DatabaseError "Timeout expired"),
         ([] ++ [connect_of plant;
                 Execute (SelectRaw (sent_id true "PLT.src/a") (in_utc early)
                            (in_utc late));
                 Close])%list)).
Proof.
  apply (failed_statement_raises_and_closes (failing "Timeout expired") plant
           "PLT.src/a" sample_ids early late (in_utc early) (in_utc late)
           default_step_size default_aggregate true true "Timeout expired"
           []); reflexivity.
Defined.
